(** * FinTrack expense tracker: a shallow embedding of [app.py]

    The four CSV files are tables (row order and duplicates matter: the
    code reads [iloc[0]] and appends with [pd.concat]).  A file is read
    whole and written whole, so an operation is a function from the files
    (and the tracker object bound to one user) to the new files, the
    reloaded tracker and the value returned.

    Modelling conventions, stated once:
    - a [str] is the [string] of its UTF-8 bytes;
    - each of the four files has its header line;
    - a file holds text and a frame holds cells: what [read_csv] makes of
      the text of a username, password, category or description depends
      on its whole column (a column of integer texts is read as int64, the
      texts pandas takes for missing values are read as NaN), and [to_csv]
      writes each cell back as text;
    - the date column holds the days the code wrote with [strftime], and
      the amount column holds numbers; their arithmetic is kept abstract
      in the class [Numeric], with IEEE binary64 (Python [float]) and
      exact hundredths as instances;
    - a date is a [Timestamp]: nanoseconds since the epoch, as pandas has
      it. *)

From Stdlib Require Import List String Ascii ZArith Bool Lia.
From Stdlib Require Import Floats DecimalString Permutation.
Import ListNotations.
Local Open Scope string_scope.
Local Open Scope list_scope.
Local Open Scope Z_scope.

(** ** SHA-256, for [hashlib.sha256(password.encode()).hexdigest()] *)

Module SHA256.

Definition w32 (x : Z) : Z := x mod 2 ^ 32.
Definition add32 (x y : Z) : Z := w32 (x + y).
Definition rotr (n x : Z) : Z :=
  Z.lor (Z.shiftr x n) (w32 (Z.shiftl x (32 - n))).
Definition shr (n x : Z) : Z := Z.shiftr x n.
Definition not32 (x : Z) : Z := 2 ^ 32 - 1 - x.

Definition Ch (x y z : Z) : Z := Z.lxor (Z.land x y) (Z.land (not32 x) z).
Definition Maj (x y z : Z) : Z :=
  Z.lxor (Z.lxor (Z.land x y) (Z.land x z)) (Z.land y z).
Definition Sigma0 (x : Z) : Z := Z.lxor (Z.lxor (rotr 2 x) (rotr 13 x)) (rotr 22 x).
Definition Sigma1 (x : Z) : Z := Z.lxor (Z.lxor (rotr 6 x) (rotr 11 x)) (rotr 25 x).
Definition sigma0 (x : Z) : Z := Z.lxor (Z.lxor (rotr 7 x) (rotr 18 x)) (shr 3 x).
Definition sigma1 (x : Z) : Z := Z.lxor (Z.lxor (rotr 17 x) (rotr 19 x)) (shr 10 x).

(** The constants of the standard: the first 32 bits of the fractional
    parts of the cube roots (round constants) and of the square roots
    (initial hash value) of the first primes. *)
Definition is_prime (n : Z) : bool :=
  forallb (fun d => negb (n mod Z.of_nat d =? 0)) (seq 2 (Z.to_nat n - 2)).

Definition primes (upto : nat) : list Z :=
  filter is_prime (map Z.of_nat (seq 2 (upto - 1))).

Fixpoint cube_root_bits (bits : nat) (n r : Z) : Z :=
  match bits with
  | O => r
  | S b =>
      let c := r + 2 ^ Z.of_nat b in
      cube_root_bits b n (if c * c * c <=? n then c else r)
  end.

Definition frac_cube_root (p : Z) : Z := w32 (cube_root_bits 40 (p * 2 ^ 96) 0).
Definition frac_square_root (p : Z) : Z := w32 (Z.sqrt (p * 2 ^ 64)).

Definition K : list Z := Eval vm_compute in map frac_cube_root (primes 311).

Definition H0 : list Z := Eval vm_compute in map frac_square_root (primes 19).

(** The message bytes, the bit 1, zeros up to 56 modulo 64, and the
    length in bits on eight bytes, most significant first. *)
Definition be_bytes (n : nat) (x : Z) : list Z :=
  map (fun i => (Z.shiftr x (8 * Z.of_nat i)) mod 256) (rev (seq 0 n)).

Definition pad (msg : list Z) : list Z :=
  let len := Z.of_nat (List.length msg) in
  let zeros := Z.to_nat ((55 - len) mod 64) in
  msg ++ [0x80] ++ repeat 0 zeros ++ be_bytes 8 (8 * len).

Fixpoint words (bytes : list Z) : list Z :=
  match bytes with
  | a :: b :: c :: d :: rest =>
      (Z.shiftl a 24 + Z.shiftl b 16 + Z.shiftl c 8 + d) :: words rest
  | _ => []
  end.

(** One round on the eight working variables. *)
Definition round (st : list Z) (k w : Z) : list Z :=
  match st with
  | [a; b; c; d; e; f; g; h] =>
      let t1 := add32 (add32 (add32 (add32 h (Sigma1 e)) (Ch e f g)) k) w in
      let t2 := add32 (Sigma0 a) (Maj a b c) in
      [add32 t1 t2; a; b; c; add32 d t1; e; f; g]
  | _ => st
  end.

(** The 64 rounds; [win] is the sliding window W[t..t+15] of the message
    schedule. *)
Fixpoint rounds (ks : list Z) (win : list Z) (st : list Z) : list Z :=
  match ks with
  | [] => st
  | k :: ks' =>
      let wt := nth 0 win 0 in
      let next :=
        add32 (add32 (sigma1 (nth 14 win 0)) (nth 9 win 0))
              (add32 (sigma0 (nth 1 win 0)) wt) in
      rounds ks' (tl win ++ [next]) (round st k wt)
  end.

Definition compress (h : list Z) (block : list Z) : list Z :=
  map (fun p => add32 (fst p) (snd p)) (combine h (rounds K block h)).

Fixpoint blocks (n : nat) (ws : list Z) (h : list Z) : list Z :=
  match n with
  | O => h
  | S n' => blocks n' (skipn 16 ws) (compress h (firstn 16 ws))
  end.

Definition digest (msg : list Z) : list Z :=
  let ws := words (pad msg) in
  blocks (List.length ws / 16) ws H0.

Definition hex_digit (d : Z) : ascii :=
  nth (Z.to_nat d)
      (list_ascii_of_string "0123456789abcdef") "0"%char.

Definition hex_word (x : Z) : list ascii :=
  map (fun i => hex_digit ((Z.shiftr x (4 * Z.of_nat i)) mod 16)) (rev (seq 0 8)).

Definition encode (s : string) : list Z :=
  map (fun c => Z.of_nat (nat_of_ascii c)) (list_ascii_of_string s).

Definition hexdigest (s : string) : string :=
  string_of_list_ascii (flat_map hex_word (digest (encode s))).

End SHA256.

Example sha_constants : List.length SHA256.K = 64%nat /\ List.length SHA256.H0 = 8%nat.
Proof. split; reflexivity. Qed.
Example sha_empty : SHA256.hexdigest "" = "e3b0c44298fc1c149afbf4c8996fb92427ae41e4649b934ca495991b7852b855".
Proof. vm_compute. reflexivity. Qed.
Example sha_abc : SHA256.hexdigest "abc" = "ba7816bf8f01cfea414140de5dae2223b00361a396177a9cb410ff61f20015ad".
Proof. vm_compute. reflexivity. Qed.
Example sha_a56 : SHA256.hexdigest "aaaaaaaaaaaaaaaaaaaaaaaaaaaaaaaaaaaaaaaaaaaaaaaaaaaaaaaa" = "b35439a4ac6f0948b6d6f9e3c6af0f5f590ce20f1bde7090ef7970686ec6738a".
Proof. vm_compute. reflexivity. Qed.


(** ** Numbers of an amount column

    [current_total + amount > budget], [amount >= min_amount] and
    [Series.sum()] act on whatever numbers the column holds.  Nothing below
    depends on more than [x > x] being false, which holds for Python
    integers and for floats (a NaN compares false with everything). *)

Class Numeric := {
  amount : Type;
  series_sum : list amount -> amount;     (* Series.sum() *)
  plus : amount -> amount -> amount;      (* x + y *)
  gt : amount -> amount -> bool;          (* x > y *)
  ge : amount -> amount -> bool;          (* x >= y *)
  le : amount -> amount -> bool;          (* x <= y *)
  gt_irrefl : forall x, gt x x = false
}.

(** A pandas [Timestamp]: nanoseconds since 1970-01-01T00:00. *)
Definition Timestamp := Z.

Definition NS_PER_DAY : Z := 86400 * 1000000000.

(** [d.strftime('%Y-%m-%d')] keeps the calendar day; read back by
    [pd.to_datetime] the text is midnight of that day. *)
Definition strftime_ymd (d : Timestamp) : Timestamp := d - d mod NS_PER_DAY.

(** ** Cells

    What a frame holds in a column that is not a date or an amount: a
    Python [str], an integer of an int64 column, a float of a float64
    column (kept by the text that prints it), a boolean, or NaN. *)

Inductive Cell :=
| Str (s : string)
| Int (n : Z)
| Flt (repr : string)
| Bool (b : bool)
| NaN.

Definition Cell_eq_dec (x y : Cell) : {x = y} + {x <> y}.
Proof.
  decide equality;
    [apply string_dec | apply Z.eq_dec | apply string_dec | apply bool_dec].
Defined.

Definition decimal (n : Z) : string := NilZero.string_of_int (Z.to_int n).

(** The text [to_csv] writes for a cell; a NaN is written as nothing. *)
Definition to_text (c : Cell) : string :=
  match c with
  | Str s => s
  | Int n => decimal n
  | Flt repr => repr
  | Bool true => "True"
  | Bool false => "False"
  | NaN => ""
  end.

(** [str(c)], which is how an f-string prints the cell. *)
Definition str (c : Cell) : string :=
  match c with
  | NaN => "nan"
  | _ => to_text c
  end.

(** [c == s] for a Python str [s]: a number, a boolean and NaN are equal
    to no str. *)
Definition eq_str (c : Cell) (s : string) : bool :=
  match c with
  | Str t => (t =? s)%string
  | _ => false
  end.

(** [s in cells] for a str [s]. *)
Definition mem (s : string) (cells : list Cell) : bool :=
  existsb (fun c => eq_str c s) cells.

(** ** What [read_csv] makes of a column

    pandas types a column as a whole.  Two facts about it are used in
    general: the column keeps its length, and a column that holds a text
    which is no number, no boolean and no missing-value marker has dtype
    object, where every cell is the str it was written as, the markers
    excepted, which are NaN; a column of markers is NaN throughout.  The
    rest of the inference (integers, floats, booleans) is left to the
    instance. *)

(** The texts [read_csv] takes for a missing value by default. *)
Definition na_values : list string :=
  [""; "#N/A"; "#N/A N/A"; "#NA"; "-1.#IND"; "-1.#QNAN"; "-NaN"; "-nan";
   "1.#IND"; "1.#QNAN"; "<NA>"; "N/A"; "NA"; "NULL"; "NaN"; "None"; "n/a";
   "nan"; "null"].

Definition is_na (s : string) : bool := existsb (String.eqb s) na_values.

Definition code (c : ascii) : Z := Z.of_nat (nat_of_ascii c).

Definition is_digit (c : ascii) : bool := (48 <=? code c) && (code c <=? 57).

(** C's [isspace]: space, tab, newline, vertical tab, form feed, return. *)
Definition is_space (c : ascii) : bool :=
  (code c =? 32) || ((9 <=? code c) && (code c <=? 13)).

Definition lower (c : ascii) : ascii :=
  if (65 <=? code c) && (code c <=? 90)
  then ascii_of_nat (nat_of_ascii c + 32)
  else c.

(** A character that can occur in the text of a number. *)
Definition numeric_char (c : ascii) : bool :=
  is_digit c || is_space c
  || existsb (Ascii.eqb c) ["+"; "-"; "."; "e"; "E"]%char.

(** The words read as a number or a boolean, whatever their case. *)
Definition special_words : list string :=
  ["inf"; "+inf"; "-inf"; "infinity"; "+infinity"; "-infinity";
   "nan"; "+nan"; "-nan"; "true"; "false"].

Definition squeeze (s : string) : string :=
  string_of_list_ascii
    (map lower (filter (fun c => negb (is_space c)) (list_ascii_of_string s))).

(** A text that is certainly a str for [read_csv]: it is no missing-value
    marker, holds a character no number is written with, and is none of
    the special words. *)
Definition word (s : string) : bool :=
  negb (is_na s)
  && negb (forallb numeric_char (list_ascii_of_string s))
  && negb (existsb (String.eqb (squeeze s)) special_words).

(** A cell of a column of dtype object. *)
Definition object_cell (s : string) : Cell :=
  if is_na s then NaN else Str s.

Class Reader := {
  read_column : list string -> list Cell;
  read_column_length :
    forall texts, List.length (read_column texts) = List.length texts;
  read_column_object :
    forall texts,
      existsb word texts = true -> read_column texts = map object_cell texts;
  read_column_missing :
    forall texts,
      forallb is_na texts = true -> read_column texts = map (fun _ => NaN) texts
}.

(** ** Tables

    A row of a file has the texts of its cells ([C] is [string]), a row of
    a frame has the cells ([C] is [Cell]). *)

Record UserRow (C : Type) := mkUser { u_username : C; u_password : C }.

Arguments mkUser {C} _ _.
Arguments u_username {C} _.
Arguments u_password {C} _.

Record CategoryRow (C : Type) := mkCategory { c_username : C; c_category : C }.

Arguments mkCategory {C} _ _.
Arguments c_username {C} _.
Arguments c_category {C} _.

Record BudgetRow `{Numeric} (C : Type) := mkBudget {
  b_username : C;
  b_category : C;
  b_amount : amount
}.

Arguments mkBudget {_ C} _ _ _.
Arguments b_username {_ C} _.
Arguments b_category {_ C} _.
Arguments b_amount {_ C} _.

Record ExpenseRow `{Numeric} (C : Type) := mkExpense {
  e_username : C;
  e_date : Timestamp;
  e_category : C;
  e_amount : amount;
  e_description : C
}.

Arguments mkExpense {_ C} _ _ _ _ _.
Arguments e_username {_ C} _.
Arguments e_date {_ C} _.
Arguments e_category {_ C} _.
Arguments e_amount {_ C} _.
Arguments e_description {_ C} _.

(** The four files. *)
Record Files `{Numeric} := mkFiles {
  USERS_FILE : list (UserRow string);
  EXPENSES_FILE : list (ExpenseRow string);
  CATEGORIES_FILE : list (CategoryRow string);
  BUDGETS_FILE : list (BudgetRow string)
}.

(** The object [ExpenseTracker(username)]: the user and the three frames
    kept by [load_data]. *)
Record ExpenseTracker `{Numeric} := mkTracker {
  username : string;
  expenses : list (ExpenseRow Cell);
  categories : list (CategoryRow Cell);
  budgets : list (BudgetRow Cell)
}.

(** The dict [expense_data] as the expense form builds it: the session's
    user, a date, a str category and a number.  [add_expense] reads
    'category' and 'amount' only; the description is written as it is (a
    blank cell of an upload is NaN). *)
Record ExpenseData `{Numeric} := mkData {
  d_username : string;
  d_date : Timestamp;
  d_category : string;
  d_amount : amount;
  d_description : Cell
}.

(** A cell of the amount column of an upload: a number when the column is
    numeric, a str when it has dtype object. *)
Inductive Amount `{Numeric} :=
| Num (a : amount)
| Txt (s : string).

(** A row of the frame [pd.read_csv(uploaded_file)]. *)
Record CsvRow `{Numeric} := mkCsvRow {
  r_date : Cell;
  r_category : Cell;
  r_amount : Amount;
  r_description : Cell
}.

(** An upload: one [read_csv] cannot read (it raises [e]), or a frame with
    its header.  When a required column is missing the code returns before
    it reads a cell, so the cells of such a file are never looked at;
    columns beyond the required four are never read. *)
Inductive UploadedFile `{Numeric} :=
| Unreadable (e : string)
| Frame (columns : list string) (rows : list CsvRow).

(** A row of [df] once lines 132 and 133 have set its username and read
    its date. *)
Record DfRow `{Numeric} := mkDfRow {
  f_date : Timestamp;
  f_category : Cell;
  f_amount : Amount;
  f_description : Cell
}.

(** ** Reading and writing a file *)

Section Csv.
Context `{Numeric} `{Reader}.

(** [pd.read_csv(USERS_FILE)] *)
Definition read_users (file : list (UserRow string)) : list (UserRow Cell) :=
  map (fun p => mkUser (fst p) (snd p))
      (combine (read_column (map u_username file))
               (read_column (map u_password file))).

(** [pd.read_csv(CATEGORIES_FILE)] *)
Definition read_categories (file : list (CategoryRow string))
  : list (CategoryRow Cell) :=
  map (fun p => mkCategory (fst p) (snd p))
      (combine (read_column (map c_username file))
               (read_column (map c_category file))).

(** [pd.read_csv(BUDGETS_FILE)] *)
Definition read_budgets (file : list (BudgetRow string))
  : list (BudgetRow Cell) :=
  map (fun p => mkBudget (fst (fst p)) (snd (fst p)) (b_amount (snd p)))
      (combine
         (combine (read_column (map b_username file))
                  (read_column (map b_category file)))
         file).

(** [pd.read_csv(EXPENSES_FILE)] *)
Definition read_expenses (file : list (ExpenseRow string))
  : list (ExpenseRow Cell) :=
  map (fun p =>
         let '(u, c, d, r) := p in
         mkExpense u (e_date r) c (e_amount r) d)
      (combine
         (combine
            (combine (read_column (map e_username file))
                     (read_column (map e_category file)))
            (read_column (map e_description file)))
         file).

(** [frame.to_csv(file, index=False)], table by table. *)
Definition users_to_csv (users : list (UserRow Cell)) : list (UserRow string) :=
  map (fun r => mkUser (to_text (u_username r)) (to_text (u_password r))) users.

Definition categories_to_csv (cats : list (CategoryRow Cell))
  : list (CategoryRow string) :=
  map (fun r => mkCategory (to_text (c_username r)) (to_text (c_category r)))
      cats.

Definition budgets_to_csv (budgets : list (BudgetRow Cell))
  : list (BudgetRow string) :=
  map (fun r =>
         mkBudget (to_text (b_username r)) (to_text (b_category r)) (b_amount r))
      budgets.

Definition expenses_to_csv (expenses : list (ExpenseRow Cell))
  : list (ExpenseRow string) :=
  map (fun r =>
         mkExpense (to_text (e_username r)) (e_date r) (to_text (e_category r))
           (e_amount r) (to_text (e_description r)))
      expenses.

End Csv.

(** ** Authentication functions *)

Definition hash_password (password : string) : string :=
  SHA256.hexdigest password.

Arguments hash_password : simpl never.

Section Authentication.
Context `{Numeric} `{Reader}.

Definition with_users (fs : Files) (file : list (UserRow string)) : Files :=
  mkFiles _ file (EXPENSES_FILE fs) (CATEGORIES_FILE fs) (BUDGETS_FILE fs).

Definition create_user (fs : Files) (username password : string)
  : Files * bool :=
  if (username =? "")%string || (password =? "")%string then (fs, false)
  else
    let users := read_users (USERS_FILE fs) in
    if mem username (map u_username users) then (fs, false)
    else
      let users :=
        users ++ [mkUser (Str username) (Str (hash_password password))] in
      (with_users fs (users_to_csv users), true).

Definition verify_user (fs : Files) (username password : string) : bool :=
  let users := read_users (USERS_FILE fs) in
  let user := filter (fun r => eq_str (u_username r) username) users in
  match user with
  | [] => false
  | r :: _ => eq_str (u_password r) (hash_password password)
  end.

End Authentication.

(** ** The expense tracker class *)

Section Tracker.
Context `{Numeric} `{Reader}.

(** [pd.to_datetime(cell, errors='coerce')]: [None] is NaT. *)
Variable to_datetime : Cell -> option Timestamp.

(** [str(e)] for the exception that [current_total + amount] raises when
    the amount is a str. *)
Variable type_error : amount -> string -> string.

Definition load_data (fs : Files) (self : ExpenseTracker) : ExpenseTracker :=
  let u := username self in
  mkTracker _ u
    (filter (fun r => eq_str (e_username r) u) (read_expenses (EXPENSES_FILE fs)))
    (filter (fun r => eq_str (c_username r) u) (read_categories (CATEGORIES_FILE fs)))
    (filter (fun r => eq_str (b_username r) u) (read_budgets (BUDGETS_FILE fs))).

(** [ExpenseTracker(username)]. *)
Definition new_tracker (fs : Files) (u : string) : ExpenseTracker :=
  load_data fs (mkTracker _ u [] [] []).

Definition default_cats : list Cell :=
  [Str "Food"; Str "Transport"; Str "Housing"; Str "Other"].

(** [list(set(default_cats + user_cats))]: no duplicates; the order of a
    Python set is not specified, only membership is used. *)
Definition get_available_categories (self : ExpenseTracker) : list Cell :=
  let user_cats := map c_category (categories self) in
  nodup Cell_eq_dec (default_cats ++ user_cats).

Definition category_total (self : ExpenseTracker) (category : string) : amount :=
  series_sum
    (map e_amount
       (filter (fun e => eq_str (e_category e) category) (expenses self))).

Definition MSG_NO_CATEGORY : string := "Category does not exist.".
Definition MSG_OVER_BUDGET : string :=
  "Adding this expense would exceed your budget for this category.".
Definition MSG_ADDED : string := "Expense added successfully.".

Definition with_expenses (fs : Files) (file : list (ExpenseRow string))
  : Files :=
  mkFiles _ (USERS_FILE fs) file (CATEGORIES_FILE fs) (BUDGETS_FILE fs).
Definition with_categories (fs : Files) (file : list (CategoryRow string))
  : Files :=
  mkFiles _ (USERS_FILE fs) (EXPENSES_FILE fs) file (BUDGETS_FILE fs).
Definition with_budgets (fs : Files) (file : list (BudgetRow string))
  : Files :=
  mkFiles _ (USERS_FILE fs) (EXPENSES_FILE fs) (CATEGORIES_FILE fs) file.

(** The row [pd.DataFrame([expense_data])] once line 118 has replaced the
    date by its calendar day. *)
Definition stored (expense_data : ExpenseData) : ExpenseRow Cell :=
  mkExpense (Str (d_username expense_data))
    (strftime_ymd (d_date expense_data))
    (Str (d_category expense_data)) (d_amount expense_data)
    (d_description expense_data).

Definition add_expense (fs : Files) (self : ExpenseTracker)
    (expense_data : ExpenseData)
  : Files * ExpenseTracker * (bool * string) :=
  let category := d_category expense_data in
  let amount := d_amount expense_data in
  if negb (mem category (get_available_categories self)) then
    (fs, self, (false, MSG_NO_CATEGORY))
  else
    let budget_row :=
      filter (fun b => eq_str (b_category b) category) (budgets self) in
    let exceeded :=
      match budget_row with
      | [] => false
      | b :: _ =>
          let budget := b_amount b in
          let current_total := category_total self category in
          gt (plus current_total amount) budget
      end in
    if exceeded then (fs, self, (false, MSG_OVER_BUDGET))
    else
      let expenses := read_expenses (EXPENSES_FILE fs) in
      let expenses := expenses ++ [stored expense_data] in
      let fs' := with_expenses fs (expenses_to_csv expenses) in
      (fs', load_data fs' self, (true, MSG_ADDED)).

(** *** Bulk upload *)

Definition required_cols : list string :=
  ["date"; "category"; "amount"; "description"].

Definition MSG_COLUMNS : string :=
  "CSV must contain date, category, amount, description columns.".
Definition MSG_DATES : string :=
  "Invalid date format in CSV. Use YYYY-MM-DD.".
Definition MSG_ALL_ADDED : string := "All expenses added successfully.".
Definition MSG_ERROR : string := "Error processing file: ".

Definition newline : string := String (ascii_of_nat 10) EmptyString.

(** The frame after [df['username'] = self.username] and
    [df['date'] = pd.to_datetime(df['date'], errors='coerce')]; [None]
    when a date is null. *)
Fixpoint coerce_dates (rows : list CsvRow) : option (list DfRow) :=
  match rows with
  | [] => Some []
  | r :: rest =>
      match to_datetime (r_date r), coerce_dates rest with
      | Some d, Some df =>
          Some (mkDfRow _ d (r_category r) (r_amount r) (r_description r) :: df)
      | _, _ => None
      end
  end.

Definition row_error (row : DfRow) (message : string) : string :=
  ("Row with " ++ str (f_description row) ++ ": " ++ message)%string.

(** What [self.add_expense(row.to_dict())] does: it returns, it raises, or
    it takes the files outside the tables of this development. *)
Inductive Call :=
| Returned (fs : Files) (self : ExpenseTracker) (reply : bool * string)
| Raised (e : string)
| Outside.

Definition is_str (c : Cell) : bool :=
  match c with
  | Str _ => true
  | _ => false
  end.

(** [self.add_expense(row.to_dict())] by the types of the row's cells.
    - A str category and a number: the dict is an [ExpenseData].
    - A str category and a str amount: line 105 refuses an unknown
      category; with a budget row line 113 adds a str to a number, which
      raises; with none the str is written into the amount column, and
      the file is no longer a table of numbers.
    - A category that is no str is equal to no str, so line 105 refuses it
      when the user's stored categories are all of them str; what [in]
      answers otherwise depends on the identity of Python objects. *)
Definition add_expense_row (fs : Files) (self : ExpenseTracker) (row : DfRow)
  : Call :=
  match f_category row, f_amount row with
  | Str category, Num amount =>
      let '(fs', self', reply) :=
        add_expense fs self
          (mkData _ (username self) (f_date row) category amount
             (f_description row)) in
      Returned fs' self' reply
  | Str category, Txt amount =>
      if negb (mem category (get_available_categories self)) then
        Returned fs self (false, MSG_NO_CATEGORY)
      else
        match filter (fun b => eq_str (b_category b) category) (budgets self) with
        | [] => Outside
        | _ :: _ => Raised (type_error (category_total self category) amount)
        end
  | _, _ =>
      if forallb is_str (map c_category (categories self)) then
        Returned fs self (false, MSG_NO_CATEGORY)
      else Outside
  end.

(** How the loop of lines 138 to 141 ends. *)
Inductive Loop :=
| Finished (fs : Files) (self : ExpenseTracker) (errors : list string)
| Aborted (fs : Files) (self : ExpenseTracker) (e : string)
| Beyond.

(** [for _, row in df.iterrows(): ...] *)
Fixpoint bulk_loop (df : list DfRow) (fs : Files)
    (self : ExpenseTracker) (errors : list string) : Loop :=
  match df with
  | [] => Finished fs self errors
  | row :: rest =>
      match add_expense_row fs self row with
      | Returned fs' self' (success, message) =>
          let errors :=
            if success then errors else errors ++ [row_error row message] in
          bulk_loop rest fs' self' errors
      | Raised e => Aborted fs self e
      | Outside => Beyond
      end
  end.

(** [None]: the upload takes the files outside the tables of this
    development. *)
Definition add_bulk_expenses (fs : Files) (self : ExpenseTracker)
    (uploaded_file : UploadedFile)
  : option (Files * ExpenseTracker * (bool * string)) :=
  match uploaded_file with
  | Unreadable e => Some (fs, self, (false, (MSG_ERROR ++ e)%string))
  | Frame columns rows =>
      if negb (forallb (fun c => existsb (String.eqb c) columns) required_cols)
      then Some (fs, self, (false, MSG_COLUMNS))
      else
        match coerce_dates rows with
        | None => Some (fs, self, (false, MSG_DATES))
        | Some df =>
            match bulk_loop df fs self [] with
            | Finished fs' self' [] => Some (fs', self', (true, MSG_ALL_ADDED))
            | Finished fs' self' errors =>
                Some (fs', self', (false, String.concat newline errors))
            | Aborted fs' self' e =>
                Some (fs', self', (false, (MSG_ERROR ++ e)%string))
            | Beyond => None
            end
        end
  end.

(** *** Categories and budgets *)

Definition add_category (fs : Files) (self : ExpenseTracker)
    (category : string)
  : Files * ExpenseTracker * bool :=
  if (category =? "")%string
     || mem category default_cats
     || mem category (map c_category (categories self))
  then (fs, self, false)
  else
    let cats := read_categories (CATEGORIES_FILE fs) in
    let cats := cats ++ [mkCategory (Str (username self)) (Str category)] in
    let fs' := with_categories fs (categories_to_csv cats) in
    (fs', load_data fs' self, true).

(** [(budgets['username'] == u) & (budgets['category'] == category)] *)
Definition budget_of (u category : string) (b : BudgetRow Cell) : bool :=
  eq_str (b_username b) u && eq_str (b_category b) category.

Definition set_budget (fs : Files) (self : ExpenseTracker)
    (category : string) (amount : amount)
  : Files * ExpenseTracker :=
  let budgets := read_budgets (BUDGETS_FILE fs) in
  let budgets :=
    filter (fun b => negb (budget_of (username self) category b)) budgets in
  let new_budget := [mkBudget (Str (username self)) (Str category) amount] in
  let budgets := budgets ++ new_budget in
  let fs' := with_budgets fs (budgets_to_csv budgets) in
  (fs', load_data fs' self).

Definition remove_budget (fs : Files) (self : ExpenseTracker)
    (category : string)
  : Files * ExpenseTracker :=
  let budgets := read_budgets (BUDGETS_FILE fs) in
  let budgets :=
    filter (fun b => negb (budget_of (username self) category b)) budgets in
  let fs' := with_budgets fs (budgets_to_csv budgets) in
  (fs', load_data fs' self).

(** *** Filtering *)

(** [if categories:] is false for [None] and for an empty list. *)
Definition truthy (categories : option (list string)) : bool :=
  match categories with
  | Some (_ :: _) => true
  | _ => false
  end.

(** [Series.isin(categories)] on one cell, for a list of str. *)
Definition isin (x : Cell) (categories : option (list string)) : bool :=
  match categories with
  | Some cs => existsb (eq_str x) cs
  | None => false
  end.

Definition get_filtered_expenses (self : ExpenseTracker)
    (start_date end_date : Timestamp)
    (categories : option (list string))
    (min_amount max_amount : option amount)
  : list (ExpenseRow Cell) :=
  match expenses self with
  | [] => []
  | _ =>
      let mask := fun e =>
        (e_date e >=? start_date) && (e_date e <=? end_date) in
      let mask :=
        if truthy categories
        then fun e => mask e && isin (e_category e) categories
        else mask in
      let mask :=
        match min_amount with
        | Some m => fun e => mask e && ge (e_amount e) m
        | None => mask
        end in
      let mask :=
        match max_amount with
        | Some m => fun e => mask e && le (e_amount e) m
        | None => mask
        end in
      filter mask (expenses self)
  end.

(** *** Requests

    Every call the presentation layer can make on a tracker; [run] is
    the effect of one of them on the files and on the tracker, [None] for
    an upload that takes the files outside the tables of this
    development. *)
Inductive Operation :=
| AddExpense (expense_data : ExpenseData)
| AddBulkExpenses (uploaded_file : UploadedFile)
| AddCategory (category : string)
| SetBudget (category : string) (amount : amount)
| RemoveBudget (category : string)
| GetFilteredExpenses (start_date end_date : Timestamp)
    (categories : option (list string)) (min_amount max_amount : option amount)
| LoadData
| GetAvailableCategories
| CreateUser (username password : string)
| VerifyUser (username password : string).

Definition run (fs : Files) (self : ExpenseTracker) (op : Operation)
  : option (Files * ExpenseTracker) :=
  match op with
  | AddExpense expense_data => Some (fst (add_expense fs self expense_data))
  | AddBulkExpenses uploaded_file =>
      option_map fst (add_bulk_expenses fs self uploaded_file)
  | AddCategory category => Some (fst (add_category fs self category))
  | SetBudget category amount => Some (set_budget fs self category amount)
  | RemoveBudget category => Some (remove_budget fs self category)
  | GetFilteredExpenses _ _ _ _ _ => Some (fs, self)
  | LoadData => Some (fs, load_data fs self)
  | GetAvailableCategories => Some (fs, self)
  | CreateUser u p => Some (fst (create_user fs u p), self)
  | VerifyUser _ _ => Some (fs, self)
  end.

End Tracker.

(** ** Two number systems *)

(** Python [float]: IEEE 754 binary64.  [Series.sum()] puts 0.0 in the
    place of every NaN and lets numpy add the column: in order from 0.0
    when it has fewer than eight numbers, in eight running sums that are
    added two by two when it has up to 128, and by halves above that. *)
Definition fill_nan (x : float) : float :=
  if PrimFloat.is_nan x then 0%float else x.

Fixpoint add_lanes (r xs : list float) : list float :=
  match r, xs with
  | a :: r', x :: xs' => PrimFloat.add a x :: add_lanes r' xs'
  | _, _ => []
  end.

(** The eight running sums once every full group of eight has been added;
    with them, the numbers left over. *)
Fixpoint unroll (fuel : nat) (r xs : list float) : list float * list float :=
  match fuel with
  | O => (r, xs)
  | S fuel' =>
      if (8 <=? List.length xs)%nat
      then unroll fuel' (add_lanes r (firstn 8 xs)) (skipn 8 xs)
      else (r, xs)
  end.

Definition lanes_sum (r : list float) : float :=
  match r with
  | [r0; r1; r2; r3; r4; r5; r6; r7] =>
      PrimFloat.add
        (PrimFloat.add (PrimFloat.add r0 r1) (PrimFloat.add r2 r3))
        (PrimFloat.add (PrimFloat.add r4 r5) (PrimFloat.add r6 r7))
  | _ => 0%float
  end.

Fixpoint pairwise_sum (fuel : nat) (xs : list float) : float :=
  let n := List.length xs in
  if (n <? 8)%nat then fold_left PrimFloat.add xs 0%float
  else if (n <=? 128)%nat then
    let '(r, rest) := unroll n (firstn 8 xs) (skipn 8 xs) in
    fold_left PrimFloat.add rest (lanes_sum r)
  else
    match fuel with
    | O => 0%float
    | S fuel' =>
        let n2 := (n / 2 - (n / 2) mod 8)%nat in
        PrimFloat.add (pairwise_sum fuel' (firstn n2 xs))
                      (pairwise_sum fuel' (skipn n2 xs))
    end.

Definition float_sum (xs : list float) : float :=
  PrimFloat.add 0%float (pairwise_sum (List.length xs) (map fill_nan xs)).

Lemma float_gt_irrefl : forall x : float, PrimFloat.ltb x x = false.
Proof.
  intro x. rewrite ltb_spec. unfold SFltb.
  destruct (Prim2SF x) as [s|s| |s m e]; simpl; try reflexivity.
  - destruct s; reflexivity.
  - destruct s; rewrite Z.compare_refl, Pos.compare_cont_refl; reflexivity.
Qed.

Definition Binary64 : Numeric := {|
  amount := float;
  series_sum := float_sum;
  plus := PrimFloat.add;
  gt := fun x y => PrimFloat.ltb y x;
  ge := fun x y => PrimFloat.leb y x;
  le := PrimFloat.leb;
  gt_irrefl := float_gt_irrefl
|}.

Example float_sums :
  float_sum [] = 0%float
  /\ float_sum [60%float; 40%float] = 100%float
  /\ float_sum [1%float; PrimFloat.nan; 2%float] = 3%float
  /\ float_sum [1%float; 0x1p-53%float; 0x1p-53%float] = 1%float
  /\ float_sum [1%float; 0%float; 0x1p-53%float; 0x1p-53%float;
                0%float; 0%float; 0%float]
     = 1%float
  /\ float_sum [1%float; 0%float; 0x1p-53%float; 0x1p-53%float;
                0%float; 0%float; 0%float; 0%float]
     = 0x1.0000000000001p0%float.
Proof. repeat split; vm_compute; reflexivity. Qed.

Lemma cents_gt_irrefl : forall x : Z, (x >? x) = false.
Proof. intro x. rewrite Z.gtb_ltb. apply Z.ltb_irrefl. Qed.

(** Exact amounts, counted in hundredths. *)
Definition Cents : Numeric := {|
  amount := Z;
  series_sum := fun xs => fold_left Z.add xs 0;
  plus := Z.add;
  gt := Z.gtb;
  ge := Z.geb;
  le := Z.leb;
  gt_irrefl := cents_gt_irrefl
|}.

(** ** The reader of pandas

    The type inference of [read_csv] on one column, in the order pandas
    tries it: a column of missing values is NaN throughout; a column of
    integers that fit 64 bits is int64; a column of integers, floats and
    missing values is float64; a column of booleans is boolean; any other
    column has dtype object.  A float is kept by the text it was read from
    (pandas writes it back as the shortest text that reads as the same
    float), an integer of a float column as its decimals followed by
    [.0].  An integer that does not fit int64 is read as a float: the
    uint64 columns of pandas are not modelled. *)

Fixpoint skip_spaces (cs : list ascii) : list ascii :=
  match cs with
  | c :: rest => if is_space c then skip_spaces rest else cs
  | [] => []
  end.

(** The value of the digits [cs] starts with, and what follows them. *)
Fixpoint digits (cs : list ascii) (acc : Z) : Z * list ascii :=
  match cs with
  | c :: rest =>
      if is_digit c then digits rest (10 * acc + (code c - 48)) else (acc, cs)
  | [] => (acc, [])
  end.

Fixpoint drop_digits (cs : list ascii) : nat * list ascii :=
  match cs with
  | c :: rest =>
      if is_digit c
      then (S (fst (drop_digits rest)), snd (drop_digits rest))
      else (O, cs)
  | [] => (O, [])
  end.

Definition sign (cs : list ascii) : bool * list ascii :=
  match cs with
  | "-"%char :: rest => (true, rest)
  | "+"%char :: rest => (false, rest)
  | _ => (false, cs)
  end.

(** Spaces, a sign, digits, spaces; the value must fit int64. *)
Definition int_literal (s : string) : option Z :=
  let '(negative, cs) := sign (skip_spaces (list_ascii_of_string s)) in
  match drop_digits cs with
  | (O, _) => None
  | _ =>
      let '(n, rest) := digits cs 0 in
      match skip_spaces rest with
      | [] =>
          let z := if negative then - n else n in
          if (- 2 ^ 63 <=? z) && (z <? 2 ^ 63) then Some z else None
      | _ => None
      end
  end.

Definition lowercase (s : string) : string :=
  string_of_list_ascii (map lower (list_ascii_of_string s)).

(** Spaces, a sign, digits with at most one point among them, an exponent
    that has digits, spaces; or one of the spellings of infinity. *)
Definition float_literal (s : string) : bool :=
  existsb (String.eqb (lowercase s))
    ["inf"; "+inf"; "-inf"; "infinity"; "+infinity"; "-infinity"]
  ||
  let cs := snd (sign (skip_spaces (list_ascii_of_string s))) in
  let '(whole, cs) := drop_digits cs in
  let '(fraction, cs) :=
    match cs with
    | "."%char :: rest => drop_digits rest
    | _ => (O, cs)
    end in
  match whole, fraction with
  | O, O => false
  | _, _ =>
      let cs :=
        match cs with
        | c :: rest =>
            if Ascii.eqb (lower c) "e"%char then
              match drop_digits (snd (sign rest)) with
              | (O, _) => cs
              | (_, after) => after
              end
            else cs
        | [] => cs
        end in
      match skip_spaces cs with
      | [] => true
      | _ => false
      end
  end.

Definition bool_literal (s : string) : option bool :=
  if (lowercase s =? "true")%string then Some true
  else if (lowercase s =? "false")%string then Some false
  else None.

Inductive Lexeme :=
| LNa
| LInt (n : Z)
| LFloat
| LBool (b : bool)
| LText.

Definition lex (s : string) : Lexeme :=
  if is_na s then LNa
  else if word s then LText
  else
    match int_literal s with
    | Some n => LInt n
    | None =>
        if float_literal s then LFloat
        else
          match bool_literal s with
          | Some b => LBool b
          | None => LText
          end
    end.

Definition missing (l : Lexeme) : bool :=
  match l with LNa => true | _ => false end.
Definition integer (l : Lexeme) : bool :=
  match l with LInt _ => true | _ => false end.
Definition number_or_missing (l : Lexeme) : bool :=
  match l with LNa | LInt _ | LFloat => true | _ => false end.
Definition boolean_or_missing (l : Lexeme) : bool :=
  match l with LNa | LBool _ => true | _ => false end.

Definition int_cell (s : string) : Cell :=
  match lex s with
  | LInt n => Int n
  | _ => NaN
  end.

Definition float_cell (s : string) : Cell :=
  match lex s with
  | LInt n => Flt (decimal n ++ ".0")
  | LFloat => Flt s
  | _ => NaN
  end.

Definition bool_cell (s : string) : Cell :=
  match lex s with
  | LBool b => Bool b
  | _ => NaN
  end.

Definition pandas_read (texts : list string) : list Cell :=
  let lexemes := map lex texts in
  if forallb missing lexemes then map (fun _ => NaN) texts
  else if forallb integer lexemes then map int_cell texts
  else if forallb number_or_missing lexemes then map float_cell texts
  else if forallb boolean_or_missing lexemes then map bool_cell texts
  else map object_cell texts.

Lemma lex_word (s : string) : word s = true -> lex s = LText.
Proof.
  intro Hw. unfold lex. rewrite Hw.
  unfold word in Hw. destruct (is_na s); [discriminate | reflexivity].
Qed.

Lemma forallb_text (p : Lexeme -> bool) (texts : list string) :
  p LText = false -> existsb word texts = true ->
  forallb p (map lex texts) = false.
Proof.
  intros Hp Hex. apply existsb_exists in Hex. destruct Hex as [s [Hin Hw]].
  destruct (forallb p (map lex texts)) eqn:E; [|reflexivity].
  rewrite forallb_forall in E.
  specialize (E (lex s) (in_map lex _ _ Hin)).
  rewrite (lex_word s Hw) in E. congruence.
Qed.

Lemma pandas_read_length (texts : list string) :
  List.length (pandas_read texts) = List.length texts.
Proof.
  unfold pandas_read.
  repeat (destruct (forallb _ _)); apply length_map.
Qed.

Lemma pandas_read_object (texts : list string) :
  existsb word texts = true -> pandas_read texts = map object_cell texts.
Proof.
  intro Hex. unfold pandas_read.
  rewrite !forallb_text by (exact Hex || reflexivity). reflexivity.
Qed.

Lemma pandas_read_missing (texts : list string) :
  forallb is_na texts = true -> pandas_read texts = map (fun _ => NaN) texts.
Proof.
  intro Hna. unfold pandas_read.
  replace (forallb missing (map lex texts)) with true; [reflexivity|].
  symmetry. rewrite forallb_forall in *. intros l Hl.
  apply in_map_iff in Hl. destruct Hl as [s [<- Hs]].
  unfold lex. now rewrite (Hna s Hs).
Qed.

Definition pandas : Reader := {|
  read_column := pandas_read;
  read_column_length := pandas_read_length;
  read_column_object := pandas_read_object;
  read_column_missing := pandas_read_missing
|}.

Example pandas_columns :
  pandas_read ["alice"; "bob"] = [Str "alice"; Str "bob"]
  /\ pandas_read ["123"] = [Int 123]
  /\ pandas_read ["007"; " 12 "; "-5"] = [Int 7; Int 12; Int (-5)]
  /\ pandas_read ["alice"; "123"; "NA"; "1.5"; "True"]
     = [Str "alice"; Str "123"; NaN; Str "1.5"; Str "True"]
  /\ pandas_read ["NA"; ""; "null"] = [NaN; NaN; NaN]
  /\ pandas_read ["2024"; "NA"] = [Flt "2024.0"; NaN]
  /\ pandas_read ["2024"; "1.5"; "1e3"; "inf"]
     = [Flt "2024.0"; Flt "1.5"; Flt "1e3"; Flt "inf"]
  /\ pandas_read ["1e"; "12"] = [Str "1e"; Str "12"]
  /\ pandas_read ["True"; "false"] = [Bool true; Bool false]
  /\ pandas_read ["True"; "1"] = [Str "True"; Str "1"]
  /\ pandas_read [] = [].
Proof. repeat split. Qed.

Example words :
  word "alice" = true /\ word "Food" = true /\ word "lunch" = true
  /\ word "123" = false /\ word "NA" = false /\ word "" = false
  /\ word "1e5" = false /\ word "Infinity" = false /\ word "TRUE" = false
  /\ word "e3b0c44298fc1c149afbf4c8996fb92427ae41e4649b934ca495991b7852b855"
     = true.
Proof. repeat split. Qed.

(** ** Vocabulary of the specification *)

Section Vocabulary.
Context `{Numeric} `{Reader}.

(** The ceiling [add_expense] compares with: the amount of the first
    budget row of the tracker for the category, if there is one. *)
Definition budget_limit (self : ExpenseTracker) (category : string)
  : option amount :=
  option_map b_amount
    (find (fun b => eq_str (b_category b) category) (budgets self)).

(** The expense would take the category over its ceiling. *)
Definition exceeds (self : ExpenseTracker) (e : ExpenseData) : bool :=
  match budget_limit self (d_category e) with
  | Some limit =>
      gt (plus (category_total self (d_category e)) (d_amount e)) limit
  | None => false
  end.

End Vocabulary.

(** ** Shared lemmas *)

Section Lemmas.
Context `{Numeric} `{Reader}.

Lemma eq_str_true (c : Cell) (s : string) : eq_str c s = true <-> c = Str s.
Proof.
  destruct c as [t| | | |]; simpl; try (split; discriminate).
  rewrite String.eqb_eq. split; congruence.
Qed.

Lemma eq_str_refl (s : string) : eq_str (Str s) s = true.
Proof. apply eq_str_true. reflexivity. Qed.

Lemma mem_In (s : string) (cells : list Cell) :
  mem s cells = true <-> In (Str s) cells.
Proof.
  unfold mem. rewrite existsb_exists. split.
  - intros [c [Hc E]]. apply eq_str_true in E. now subst.
  - intro Hin. exists (Str s). split; [assumption | apply eq_str_refl].
Qed.

Lemma mem_not_In (s : string) (cells : list Cell) :
  mem s cells = false <-> ~ In (Str s) cells.
Proof.
  rewrite <- mem_In. destruct (mem s cells); split; congruence.
Qed.

Lemma available_spec (self : ExpenseTracker) (c : Cell) :
  In c (get_available_categories self) <->
  In c default_cats \/ In c (map c_category (categories self)).
Proof.
  unfold get_available_categories. rewrite nodup_In, in_app_iff. tauto.
Qed.

Lemma hd_filter_find {A} (f : A -> bool) (l : list A) :
  hd_error (filter f l) = find f l.
Proof.
  induction l as [|a l IH]; simpl; [reflexivity|].
  destruct (f a); simpl; auto.
Qed.

Lemma filter_filter {A} (f g : A -> bool) (l : list A) :
  filter f (filter g l) = filter (fun x => g x && f x) l.
Proof.
  induction l as [|a l IH]; simpl; [reflexivity|].
  destruct (g a); simpl; [destruct (f a)|]; now rewrite IH.
Qed.

(** [add_expense] by its three exits. *)
Lemma add_expense_eq (fs : Files) (self : ExpenseTracker) (e : ExpenseData) :
  add_expense fs self e =
  if negb (mem (d_category e) (get_available_categories self))
  then (fs, self, (false, MSG_NO_CATEGORY))
  else if exceeds self e then (fs, self, (false, MSG_OVER_BUDGET))
  else
    let fs' :=
      with_expenses fs
        (expenses_to_csv (read_expenses (EXPENSES_FILE fs) ++ [stored e])) in
    (fs', load_data fs' self, (true, MSG_ADDED)).
Proof.
  unfold add_expense, exceeds, budget_limit.
  rewrite <- hd_filter_find.
  destruct (filter _ (budgets self)); reflexivity.
Qed.

Lemma add_expense_failure (fs : Files) (self : ExpenseTracker) (e : ExpenseData) :
  fst (snd (add_expense fs self e)) = false ->
  fst (add_expense fs self e) = (fs, self).
Proof.
  rewrite add_expense_eq.
  destruct (negb _); [reflexivity|].
  destruct (exceeds self e); [reflexivity|]. simpl. discriminate.
Qed.

Lemma budget_limit_none (self : ExpenseTracker) (category : string) :
  budget_limit self category = None <->
  forall b, In b (budgets self) -> b_category b <> Str category.
Proof.
  unfold budget_limit. split.
  - intros E b Hb Hc.
    destruct (find _ (budgets self)) eqn:F; [discriminate|].
    apply (find_none _ _ F) in Hb. rewrite Hc, eq_str_refl in Hb.
    discriminate.
  - intros Hno. destruct (find _ (budgets self)) as [b|] eqn:F; [|reflexivity].
    apply find_some in F. destruct F as [Hb E]. apply eq_str_true in E.
    now destruct (Hno b Hb).
Qed.

Lemma category_total_loaded (fs : Files) (u category : string) :
  category_total (new_tracker fs u) category =
  series_sum
    (map e_amount
       (filter (fun r => eq_str (e_username r) u && eq_str (e_category r) category)
               (read_expenses (EXPENSES_FILE fs)))).
Proof.
  unfold category_total, new_tracker, load_data. simpl.
  now rewrite filter_filter.
Qed.

End Lemmas.

(** ** Adding one expense *)


(** ** The scenario of user alice, on Python floats *)

Module Alice.
Local Existing Instance Binary64.
Local Existing Instance pandas.

Definition empty_files : Files := mkFiles _ [] [] [] [].

(** 2024-01-15, 2024-01-16 and 2024-01-17 at midnight. *)
Definition jan15 : Timestamp := 19737 * NS_PER_DAY.
Definition jan16 : Timestamp := 19738 * NS_PER_DAY.
Definition jan17 : Timestamp := 19739 * NS_PER_DAY.

(** The float nearest to 0.01, which is what Python reads for [0.01]. *)
Definition one_cent : float := 0x1.47ae147ae147bp-7%float.

Definition signed_up : Files := fst (create_user empty_files "alice" "secret").
Definition tracker0 : ExpenseTracker := new_tracker signed_up "alice".

Definition budgeted : Files * ExpenseTracker :=
  set_budget signed_up tracker0 "Food" 100%float.

Definition lunch : ExpenseData :=
  mkData _ "alice" jan15 "Food" 60%float (Str "lunch").
Definition dinner : ExpenseData :=
  mkData _ "alice" jan16 "Food" 40%float (Str "dinner").
Definition gum : ExpenseData :=
  mkData _ "alice" jan17 "Food" one_cent (Str "gum").

Definition after_lunch := add_expense (fst budgeted) (snd budgeted) lunch.
Definition after_dinner :=
  add_expense (fst (fst after_lunch)) (snd (fst after_lunch)) dinner.
Definition after_gum :=
  add_expense (fst (fst after_dinner)) (snd (fst after_dinner)) gum.

(** The tracker once lunch and dinner are in. *)
Definition two_meals : ExpenseTracker := snd (fst after_dinner).

Definition fifty : amount := 50%float.

End Alice.

(** C3.  When [add_expense] returns failure, the expense file and the
    tracker are what they were, and the message is one of the two
    rejections.  In the scenario: with a budget of 100.00 for Food, adding
    60.00 succeeds (total 60.00), adding 40.00 succeeds (total exactly
    100.00), and adding 0.01 more fails with the budget message, the total
    staying 100.00 and the file keeping its two rows. *)
Theorem add_expense_failure_keeps_ledger :
  (forall (N : Numeric) (R : Reader) (fs : Files) (self : ExpenseTracker)
          (e : ExpenseData),
      fst (snd (add_expense fs self e)) = false ->
      fst (add_expense fs self e) = (fs, self)
      /\ (snd (snd (add_expense fs self e)) = MSG_NO_CATEGORY
          \/ snd (snd (add_expense fs self e)) = MSG_OVER_BUDGET))
  /\ snd Alice.after_lunch = (true, MSG_ADDED)
  /\ category_total (snd (fst Alice.after_lunch)) "Food" = 60%float
  /\ snd Alice.after_dinner = (true, MSG_ADDED)
  /\ category_total (snd (fst Alice.after_dinner)) "Food" = 100%float
  /\ snd Alice.after_gum = (false, MSG_OVER_BUDGET)
  /\ fst Alice.after_gum = fst Alice.after_dinner
  /\ category_total (snd (fst Alice.after_gum)) "Food" = 100%float
  /\ EXPENSES_FILE (fst (fst Alice.after_gum))
     = expenses_to_csv [stored Alice.lunch; stored Alice.dinner].
Proof.
  split.
  - intros N R fs self e Hfail. split.
    + now apply add_expense_failure.
    + revert Hfail. rewrite add_expense_eq.
      destruct (negb _); [now left|].
      destruct (exceeds self e); [now right|]. simpl. discriminate.
  - repeat split; vm_compute; reflexivity.
Qed.


(** gum is refused and the files and the tracker stay as dinner left them. *)
Lemma add_expense_failure_keeps_ledger_witness :
  fst Alice.after_gum = (fst (fst Alice.after_dinner), Alice.two_meals).
Proof.
  destruct add_expense_failure_keeps_ledger as [Hkeep _].
  destruct (Hkeep Binary64 pandas (fst (fst Alice.after_dinner))
              Alice.two_meals Alice.gum) as [Hsame _].
  - vm_compute. reflexivity.
  - exact Hsame.
Defined.

(** ** Files that read back as they were written

    A text is steady when it is a word or blank.  A column of steady texts
    is read as the str of each word and NaN for each blank, and written
    back it is the same column: on such files [to_csv] after [read_csv]
    changes nothing. *)

Section Steady.
Context `{Numeric} `{Reader}.

Definition steady (s : string) : bool := word s || (s =? "")%string.

Definition steady_users (file : list (UserRow string)) : bool :=
  forallb (fun r => steady (u_username r) && steady (u_password r)) file.

Definition steady_categories (file : list (CategoryRow string)) : bool :=
  forallb (fun r => steady (c_username r) && steady (c_category r)) file.

Definition steady_budgets (file : list (BudgetRow string)) : bool :=
  forallb (fun r => steady (b_username r) && steady (b_category r)) file.

Definition steady_expenses (file : list (ExpenseRow string)) : bool :=
  forallb (fun r => steady (e_username r) && steady (e_category r)
                    && steady (e_description r)) file.

(** Every text of every file is steady. *)
Definition steady_files (fs : Files) : Prop :=
  steady_users (USERS_FILE fs) = true
  /\ steady_expenses (EXPENSES_FILE fs) = true
  /\ steady_categories (CATEGORIES_FILE fs) = true
  /\ steady_budgets (BUDGETS_FILE fs) = true.

Lemma word_not_na (s : string) : word s = true -> is_na s = false.
Proof.
  unfold word. destruct (is_na s); [discriminate | reflexivity].
Qed.

Lemma steady_cases (s : string) :
  steady s = true -> (word s = true /\ is_na s = false) \/ s = "".
Proof.
  unfold steady. intro Hs. apply orb_true_iff in Hs. destruct Hs as [Hw|He].
  - left. split; [exact Hw | now apply word_not_na].
  - right. now apply String.eqb_eq.
Qed.

Lemma read_column_steady (texts : list string) :
  forallb steady texts = true -> read_column texts = map object_cell texts.
Proof.
  intro Hs. destruct (existsb word texts) eqn:Hw.
  - now apply read_column_object.
  - assert (Hna : forallb is_na texts = true).
    { rewrite forallb_forall in *. intros s Hin.
      destruct (steady_cases s (Hs s Hin)) as [[Hws _]| ->]; [|reflexivity].
      assert (Hex : existsb word texts = true)
        by (apply existsb_exists; exists s; auto).
      congruence. }
    rewrite (read_column_missing texts Hna).
    apply map_ext_in. intros s Hin. unfold object_cell.
    rewrite forallb_forall in Hna. now rewrite (Hna s Hin).
Qed.

Lemma to_text_object (s : string) :
  steady s = true -> to_text (object_cell s) = s.
Proof.
  intro Hs. unfold object_cell.
  destruct (steady_cases s Hs) as [[_ ->]| ->]; reflexivity.
Qed.

(** [cell == u] on a cell of an object column is the comparison of the
    texts, when [u] is no missing-value marker. *)
Lemma eq_str_object (s u : string) :
  is_na u = false -> eq_str (object_cell s) u = (s =? u)%string.
Proof.
  intro Hu. unfold object_cell. destruct (is_na s) eqn:Hs; [|reflexivity].
  simpl. symmetry. apply String.eqb_neq. intros ->. congruence.
Qed.

Lemma map_combine_fst {A B} (f : A -> B) (g : A -> B) (l : list A) :
  combine (map f l) (map g l) = map (fun x => (f x, g x)) l.
Proof. induction l as [|x l IH]; simpl; [reflexivity | now rewrite IH]. Qed.

Lemma combine_self {A B} (f : A -> B) (l : list A) :
  combine (map f l) l = map (fun x => (f x, x)) l.
Proof. induction l as [|x l IH]; simpl; [reflexivity | now rewrite IH]. Qed.

Lemma forallb_map_and {A} (p q : A -> bool) (l : list A) :
  forallb (fun x => p x && q x) l = true ->
  forallb p l = true /\ forallb q l = true.
Proof.
  rewrite !forallb_forall. intro Hpq. split; intros x Hx;
    specialize (Hpq x Hx); apply andb_true_iff in Hpq; tauto.
Qed.

Lemma forallb_map {A B} (p : B -> bool) (f : A -> B) (l : list A) :
  forallb p (map f l) = forallb (fun x => p (f x)) l.
Proof. induction l as [|x l IH]; simpl; [reflexivity | now rewrite IH]. Qed.

(** The frames [read_csv] gives for steady files. *)
Definition object_user (r : UserRow string) : UserRow Cell :=
  mkUser (object_cell (u_username r)) (object_cell (u_password r)).

Definition object_category (r : CategoryRow string) : CategoryRow Cell :=
  mkCategory (object_cell (c_username r)) (object_cell (c_category r)).

Definition object_budget (r : BudgetRow string) : BudgetRow Cell :=
  mkBudget (object_cell (b_username r)) (object_cell (b_category r)) (b_amount r).

Definition object_expense (r : ExpenseRow string) : ExpenseRow Cell :=
  mkExpense (object_cell (e_username r)) (e_date r)
    (object_cell (e_category r)) (e_amount r) (object_cell (e_description r)).

Lemma read_users_steady (file : list (UserRow string)) :
  steady_users file = true -> read_users file = map object_user file.
Proof.
  intro Hs. apply forallb_map_and in Hs. destruct Hs as [Hu Hp].
  unfold read_users.
  rewrite !read_column_steady by (now rewrite forallb_map).
  rewrite !map_map, map_combine_fst, map_map. reflexivity.
Qed.

Lemma read_categories_steady (file : list (CategoryRow string)) :
  steady_categories file = true ->
  read_categories file = map object_category file.
Proof.
  intro Hs. apply forallb_map_and in Hs. destruct Hs as [Hu Hc].
  unfold read_categories.
  rewrite !read_column_steady by (now rewrite forallb_map).
  rewrite !map_map, map_combine_fst, map_map. reflexivity.
Qed.

Lemma read_budgets_steady (file : list (BudgetRow string)) :
  steady_budgets file = true -> read_budgets file = map object_budget file.
Proof.
  intro Hs. apply forallb_map_and in Hs. destruct Hs as [Hu Hc].
  unfold read_budgets.
  rewrite !read_column_steady by (now rewrite forallb_map).
  rewrite !map_map, map_combine_fst, combine_self, map_map. reflexivity.
Qed.

Lemma read_expenses_steady (file : list (ExpenseRow string)) :
  steady_expenses file = true -> read_expenses file = map object_expense file.
Proof.
  intro Hs. apply forallb_map_and in Hs. destruct Hs as [Hs Hd].
  apply forallb_map_and in Hs. destruct Hs as [Hu Hc].
  unfold read_expenses.
  rewrite !read_column_steady by (now rewrite forallb_map).
  rewrite !map_map, map_combine_fst.
  rewrite <- (map_map (fun x => (object_cell (e_username x), object_cell (e_category x)))
                      (fun p => p)).
  rewrite map_id.
  induction file as [|r file IH]; simpl; [reflexivity|].
  simpl in Hu, Hc, Hd.
  apply andb_true_iff in Hu, Hc, Hd.
  rewrite IH by tauto. reflexivity.
Qed.

Lemma users_to_csv_steady (file : list (UserRow string)) :
  steady_users file = true -> users_to_csv (map object_user file) = file.
Proof.
  intro Hs. unfold users_to_csv. rewrite map_map.
  rewrite <- (map_id file) at 2. apply map_ext_in. intros [u p] Hin.
  unfold steady_users in Hs. rewrite forallb_forall in Hs.
  specialize (Hs _ Hin). simpl in Hs. apply andb_true_iff in Hs.
  destruct Hs as [Hu Hp]. simpl. now rewrite !to_text_object.
Qed.

Lemma categories_to_csv_steady (file : list (CategoryRow string)) :
  steady_categories file = true ->
  categories_to_csv (map object_category file) = file.
Proof.
  intro Hs. unfold categories_to_csv. rewrite map_map.
  rewrite <- (map_id file) at 2. apply map_ext_in. intros [u c] Hin.
  unfold steady_categories in Hs. rewrite forallb_forall in Hs.
  specialize (Hs _ Hin). simpl in Hs. apply andb_true_iff in Hs.
  destruct Hs as [Hu Hc]. simpl. now rewrite !to_text_object.
Qed.

Lemma budgets_to_csv_steady (file : list (BudgetRow string)) :
  steady_budgets file = true -> budgets_to_csv (map object_budget file) = file.
Proof.
  intro Hs. unfold budgets_to_csv. rewrite map_map.
  rewrite <- (map_id file) at 2. apply map_ext_in. intros [u c a] Hin.
  unfold steady_budgets in Hs. rewrite forallb_forall in Hs.
  specialize (Hs _ Hin). simpl in Hs. apply andb_true_iff in Hs.
  destruct Hs as [Hu Hc]. simpl. now rewrite !to_text_object.
Qed.

Lemma expenses_to_csv_steady (file : list (ExpenseRow string)) :
  steady_expenses file = true ->
  expenses_to_csv (map object_expense file) = file.
Proof.
  intro Hs. unfold expenses_to_csv. rewrite map_map.
  rewrite <- (map_id file) at 2. apply map_ext_in. intros [u d c a t] Hin.
  unfold steady_expenses in Hs. rewrite forallb_forall in Hs.
  specialize (Hs _ Hin). simpl in Hs. apply andb_true_iff in Hs.
  destruct Hs as [Hs Ht]. apply andb_true_iff in Hs.
  destruct Hs as [Hu Hc]. simpl. now rewrite !to_text_object.
Qed.

End Steady.

(** ** Sign-up and login *)

Section Credentials.
Context `{Numeric} `{Reader}.

Lemma create_user_result (fs : Files) (u p : string) :
  create_user fs u p =
  if (u =? "")%string || (p =? "")%string
     || mem u (map u_username (read_users (USERS_FILE fs)))
  then (fs, false)
  else
    (with_users fs
       (users_to_csv
          (read_users (USERS_FILE fs)
           ++ [mkUser (Str u) (Str (hash_password p))])),
     true).
Proof.
  unfold create_user.
  destruct (u =? "")%string; [reflexivity|].
  destruct (p =? "")%string; [reflexivity|]. simpl.
  destruct (mem u _); reflexivity.
Qed.

Lemma verify_user_iff (fs : Files) (u p : string) :
  verify_user fs u p = true <->
  exists r,
    find (fun r => eq_str (u_username r) u) (read_users (USERS_FILE fs)) = Some r
    /\ u_password r = Str (hash_password p).
Proof.
  unfold verify_user. rewrite <- hd_filter_find.
  destruct (filter _ (read_users (USERS_FILE fs))) as [|r rest]; simpl.
  - split; [discriminate | intros [r [E _]]; discriminate].
  - rewrite eq_str_true. split.
    + intro E. now exists r.
    + intros [r' [E1 E2]]. now inversion E1; subst.
Qed.

Lemma object_cell_str (s u : string) : object_cell s = Str u -> s = u.
Proof.
  unfold object_cell. destruct (is_na s); [discriminate|]. congruence.
Qed.

Lemma object_cell_word (s : string) : word s = true -> object_cell s = Str s.
Proof.
  intro Hw. unfold object_cell. now rewrite (word_not_na s Hw).
Qed.

Lemma mem_object (u : string) (texts : list string) :
  (mem u (map object_cell texts) = true -> In u texts)
  /\ (is_na u = false -> In u texts -> mem u (map object_cell texts) = true).
Proof.
  split.
  - intro Hm. apply mem_In, in_map_iff in Hm. destruct Hm as [s [E Hin]].
    apply object_cell_str in E. now subst.
  - intros Hu Hin. apply mem_In, in_map_iff. exists u. split; [|exact Hin].
    unfold object_cell. now rewrite Hu.
Qed.

Lemma filter_absent (file : list (UserRow string)) (u : string) :
  ~ In u (map u_username file) ->
  filter (fun r => eq_str (u_username r) u) (map object_user file) = [].
Proof.
  induction file as [|r file IH]; simpl; intro Hno; [reflexivity|].
  destruct (eq_str (object_cell (u_username r)) u) eqn:E.
  - exfalso. apply Hno. left. apply eq_str_true in E.
    now apply object_cell_str.
  - apply IH. intro Hin. apply Hno. now right.
Qed.

Lemma steady_word (s : string) : word s = true -> steady s = true.
Proof. intro Hw. unfold steady. now rewrite Hw. Qed.

End Credentials.

(** *** A username of digits, and the username NA *)

Module Digits.
Local Existing Instance Binary64.
Local Existing Instance pandas.

(** On a user file with no row yet: sign up as 123, log in, sign up as
    123 again. *)
Definition signup : Files * bool := create_user Alice.empty_files "123" "pw".
Definition frame : list (UserRow Cell) := read_users (USERS_FILE (fst signup)).
Definition login : bool := verify_user (fst signup) "123" "pw".
Definition again : Files * bool := create_user (fst signup) "123" "other".

(** Sign up as NA, log in, then let bob sign up. *)
Definition missing : Files * bool := create_user Alice.empty_files "NA" "pw".
Definition missing_login : bool := verify_user (fst missing) "NA" "pw".
Definition bob : Files * bool := create_user (fst missing) "bob" "pw".

End Digits.

(** C7.  The claim fails for a username that [read_csv] does not read as
    the str it was written as.  On a user file with no row,
    [create_user('123', 'pw')] returns True and writes the row; the column
    is then read as int64, so [verify_user('123', 'pw')] is False and a
    second [create_user('123', ...)] returns True and writes the name a
    second time.  After [create_user('NA', 'pw')] the login fails as well,
    and the next sign-up writes the name back as an empty cell. *)
Theorem numeric_username_locked_out :
  snd Digits.signup = true
  /\ USERS_FILE (fst Digits.signup) = [mkUser "123" (hash_password "pw")]
  /\ map u_username Digits.frame = [Int 123]
  /\ Digits.login = false
  /\ snd Digits.again = true
  /\ map u_username (USERS_FILE (fst Digits.again)) = ["123"; "123"]
  /\ snd Digits.missing = true
  /\ Digits.missing_login = false
  /\ snd Digits.bob = true
  /\ map u_username (USERS_FILE (fst Digits.bob)) = [""; "bob"].
Proof. repeat split; vm_compute; reflexivity. Qed.

(** On a user file of steady texts the claim of sign-up and login holds
    for every username that is a word: [create_user] returns false exactly
    when the username or the password is empty or the username is in the
    file, and then writes nothing; when it returns true the file has
    gained the row (username, SHA-256 of the password) and nothing else has
    changed; if the digest is a word too, login with the same pair then
    succeeds and login with a password of another digest fails.  A
    username the file does not hold cannot log in. *)
Theorem signup_then_login `{Numeric} `{Reader} (fs : Files) (u p : string) :
  steady_users (USERS_FILE fs) = true ->
  u = "" \/ word u = true ->
  (snd (create_user fs u p) = false <->
     u = "" \/ p = "" \/ In u (map u_username (USERS_FILE fs)))
  /\ (snd (create_user fs u p) = false -> fst (create_user fs u p) = fs)
  /\ (snd (create_user fs u p) = true ->
        fst (create_user fs u p)
          = with_users fs (USERS_FILE fs ++ [mkUser u (hash_password p)])
        /\ (word (hash_password p) = true ->
            steady_users (USERS_FILE (fst (create_user fs u p))) = true
            /\ verify_user (fst (create_user fs u p)) u p = true
            /\ forall p', hash_password p' <> hash_password p ->
                          verify_user (fst (create_user fs u p)) u p' = false))
  /\ (forall u' p',
        ~ In u' (map u_username (USERS_FILE fs)) -> verify_user fs u' p' = false).
Proof.
  intros Hs Hu.
  assert (Hmissing : forall u' p',
             ~ In u' (map u_username (USERS_FILE fs)) ->
             verify_user fs u' p' = false).
  { intros u' p' Hno. unfold verify_user.
    rewrite (read_users_steady _ Hs). now rewrite filter_absent. }
  rewrite create_user_result, (read_users_steady _ Hs), map_map.
  change (map (fun x => u_username (object_user x)) (USERS_FILE fs))
    with (map (fun x => object_cell (u_username x)) (USERS_FILE fs)).
  rewrite <- (map_map u_username object_cell).
  destruct (String.eqb_spec u "") as [Eu|Eu]; simpl.
  { repeat split; auto; discriminate. }
  destruct (String.eqb_spec p "") as [Ep|Ep]; simpl.
  { repeat split; auto; discriminate. }
  destruct Hu as [Hu|Hu]; [contradiction|].
  destruct (mem u (map object_cell (map u_username (USERS_FILE fs)))) eqn:Hm;
    simpl.
  { apply mem_object in Hm. repeat split; auto; discriminate. }
  assert (Hno : ~ In u (map u_username (USERS_FILE fs))).
  { intro Hin.
    apply (proj2 (mem_object u _) (word_not_na u Hu)) in Hin. congruence. }
  assert (Hfile : users_to_csv
                    (map object_user (USERS_FILE fs)
                     ++ [mkUser (Str u) (Str (hash_password p))])
                  = USERS_FILE fs ++ [mkUser u (hash_password p)]).
  { unfold users_to_csv. rewrite map_app.
    change (map _ (map object_user (USERS_FILE fs)))
      with (users_to_csv (map object_user (USERS_FILE fs))).
    now rewrite (users_to_csv_steady _ Hs). }
  rewrite Hfile.
  split; [|split; [|split]].
  - split; [discriminate|]. intros [E|[E|E]]; contradiction.
  - discriminate.
  - intros _. split; [reflexivity|]. intro Hh.
    assert (Hs' : steady_users (USERS_FILE fs ++ [mkUser u (hash_password p)])
                  = true).
    { unfold steady_users. rewrite forallb_app. fold (steady_users (USERS_FILE fs)).
      rewrite Hs. simpl. now rewrite !steady_word. }
    assert (Hrow : forall q,
               verify_user
                 (with_users fs (USERS_FILE fs ++ [mkUser u (hash_password p)]))
                 u q
               = (hash_password p =? hash_password q)%string).
    { intro q. unfold verify_user, with_users. simpl.
      rewrite (read_users_steady _ Hs'), map_app, filter_app.
      rewrite filter_absent by assumption. simpl.
      unfold object_user. simpl.
      rewrite (object_cell_word u Hu), (object_cell_word _ Hh).
      now rewrite eq_str_refl. }
    split; [exact Hs'|]. split.
    + rewrite Hrow. apply String.eqb_refl.
    + intros p' Hne. rewrite Hrow. apply String.eqb_neq. congruence.
  - exact Hmissing.
Qed.

(** alice signs up with "secret"; she logs in with it and not with
    "Secret"; an empty password and a second alice are refused. *)
Lemma signup_then_login_witness :
  snd (@create_user Binary64 pandas Alice.empty_files "alice" "secret") = true
  /\ @verify_user Binary64 pandas Alice.signed_up "alice" "secret" = true
  /\ @verify_user Binary64 pandas Alice.signed_up "alice" "Secret" = false
  /\ @verify_user Binary64 pandas Alice.signed_up "bob" "secret" = false
  /\ snd (@create_user Binary64 pandas Alice.signed_up "alice" "other") = false
  /\ snd (@create_user Binary64 pandas Alice.signed_up "bob" "") = false.
Proof.
  assert (Hempty : @steady_users Alice.empty_files.(USERS_FILE) = true)
    by reflexivity.
  assert (Hsigned_up : @steady_users Alice.signed_up.(USERS_FILE) = true)
    by (vm_compute; reflexivity).
  pose proof (@signup_then_login Binary64 pandas Alice.empty_files "alice"
                "secret" Hempty (or_intror eq_refl))
    as [_ [_ [Hok _]]].
  pose proof (@signup_then_login Binary64 pandas Alice.signed_up "alice" "other"
                Hsigned_up (or_intror eq_refl))
    as [Hdup [_ [_ Hmissing]]].
  pose proof (@signup_then_login Binary64 pandas Alice.signed_up "bob" ""
                Hsigned_up (or_intror eq_refl))
    as [Hnone _].
  assert (Hsigned : snd (@create_user Binary64 pandas Alice.empty_files "alice"
                           "secret") = true)
    by (vm_compute; reflexivity).
  destruct (Hok Hsigned) as [_ Hlogin].
  assert (Hword : word (hash_password "secret") = true)
    by (vm_compute; reflexivity).
  destruct (Hlogin Hword) as [_ [Hsame Hwrong]].
  fold Alice.signed_up in Hsame, Hwrong.
  split; [exact Hsigned|].
  split; [exact Hsame|].
  split; [apply Hwrong; vm_compute; discriminate|].
  split; [apply Hmissing; vm_compute; intros [E|[]]; discriminate E|].
  split; [apply Hdup; right; right; vm_compute; now left|].
  apply Hnone. right. now left.
Defined.

(** ** Categories *)

(** A call that returned false without writing: the reason is [why]. *)
Ltac rejected why :=
  split; [split; [intros _; why | reflexivity]
         | split; [reflexivity | discriminate]].

(** *** A category of digits, and the category NA *)

Module Year.
Local Existing Instance Binary64.
Local Existing Instance pandas.

(** alice adds the category 2024, and adds it again. *)
Definition first := add_category Alice.signed_up Alice.tracker0 "2024".
Definition second := add_category (fst (fst first)) (snd (fst first)) "2024".

(** She then files an expense under it. *)
Definition ticket : ExpenseData :=
  mkData _ "alice" Alice.jan15 "2024" 5%float (Str "ticket").
Definition filed := add_expense (fst (fst second)) (snd (fst second)) ticket.

(** alice adds the category NA and files an expense under it. *)
Definition na := add_category Alice.signed_up Alice.tracker0 "NA".
Definition na_ticket : ExpenseData :=
  mkData _ "alice" Alice.jan15 "NA" 5%float (Str "ticket").
Definition na_filed := add_expense (fst (fst na)) (snd (fst na)) na_ticket.

(** alice sets a budget of 10 for 2024, then one of 20. *)
Definition set10 := set_budget Alice.signed_up Alice.tracker0 "2024" 10%float.
Definition set20 := set_budget (fst set10) (snd set10) "2024" 20%float.

(** Or she removes the budget of 10. *)
Definition removed := remove_budget (fst set10) (snd set10) "2024".

(** The rows the two calls of [set_budget] write. *)
Definition row10 : BudgetRow string := mkBudget "alice" "2024" 10%float.
Definition row20 : BudgetRow string := mkBudget "alice" "2024" 20%float.

End Year.

(** C8.  The claim fails for a name that [read_csv] does not read as the
    str it was written as.  [add_category('2024')] returns True and the
    reloaded column is int64, so the same call returns True again and the
    file holds the name twice; an expense in that category is refused all
    the same.  After [add_category('NA')] the reloaded cell is NaN and an
    expense in NA is refused. *)
Theorem numeric_category_added_twice :
  snd Year.first = true
  /\ map c_category (categories (snd (fst Year.first))) = [Int 2024]
  /\ snd Year.second = true
  /\ CATEGORIES_FILE (fst (fst Year.second))
     = [mkCategory "alice" "2024"; mkCategory "alice" "2024"]
  /\ snd Year.filed = (false, MSG_NO_CATEGORY)
  /\ snd Year.na = true
  /\ map c_category (categories (snd (fst Year.na))) = [NaN]
  /\ snd Year.na_filed = (false, MSG_NO_CATEGORY).
Proof. repeat split; vm_compute; reflexivity. Qed.

Section Categories.
Context `{Numeric} `{Reader}.

Lemma filter_map {A B} (p : B -> bool) (f : A -> B) (l : list A) :
  filter p (map f l) = map f (filter (fun x => p (f x)) l).
Proof.
  induction l as [|x l IH]; simpl; [reflexivity|].
  destruct (p (f x)); simpl; now rewrite IH.
Qed.

Lemma steady_categories_app (file : list (CategoryRow string)) (u c : string) :
  steady_categories file = true -> word u = true -> word c = true ->
  steady_categories (file ++ [mkCategory u c]) = true.
Proof.
  intros Hs Hu Hc. unfold steady_categories. rewrite forallb_app.
  fold (steady_categories file). rewrite Hs. simpl.
  now rewrite !steady_word.
Qed.

Lemma categories_to_csv_app (file : list (CategoryRow string)) (u c : string) :
  steady_categories file = true ->
  categories_to_csv (map object_category file ++ [mkCategory (Str u) (Str c)])
  = file ++ [mkCategory u c].
Proof.
  intro Hs. unfold categories_to_csv. rewrite map_app.
  change (map _ (map object_category file))
    with (categories_to_csv (map object_category file)).
  now rewrite (categories_to_csv_steady _ Hs).
Qed.

End Categories.

(** On a category file of steady texts, for a user whose name is a word
    and a category that is a word, the claim holds: [add_category] fails
    exactly when the name is empty, is one of Food, Transport, Housing and
    Other, or is already a category of the tracker, and then changes
    nothing; for any other name it succeeds, appends the row (user, name)
    to the category file and reloads, after which the same call fails. *)
Theorem add_category_once `{Numeric} `{Reader}
    (fs : Files) (self : ExpenseTracker) (category : string) :
  steady_categories (CATEGORIES_FILE fs) = true ->
  word (username self) = true ->
  category = "" \/ word category = true ->
  let result := add_category fs self category in
  (snd result = false <->
     category = ""
     \/ In (Str category) default_cats
     \/ In (Str category) (map c_category (categories self)))
  /\ (snd result = false -> fst result = (fs, self))
  /\ (snd result = true ->
        let fs' := with_categories fs
                     (CATEGORIES_FILE fs ++ [mkCategory (username self) category]) in
        fst result = (fs', load_data fs' self)
        /\ steady_categories (CATEGORIES_FILE fs') = true
        /\ add_category fs' (load_data fs' self) category
           = (fs', load_data fs' self, false)).
Proof.
  intros Hs Hu Hc. unfold add_category.
  destruct (String.eqb_spec category "") as [Ee|Ee]; cbn [orb fst snd].
  { rejected ltac:(now left). }
  destruct (mem category default_cats) eqn:Hd; cbn [orb fst snd].
  { apply mem_In in Hd. rejected ltac:(right; left; exact Hd). }
  destruct (mem category (map c_category (categories self))) eqn:Hm;
    cbn [orb fst snd].
  { apply mem_In in Hm. rejected ltac:(right; right; exact Hm). }
  apply mem_not_In in Hd. apply mem_not_In in Hm.
  destruct Hc as [Hc|Hc]; [contradiction|].
  rewrite (read_categories_steady _ Hs), (categories_to_csv_app _ _ _ Hs).
  pose proof (steady_categories_app _ _ _ Hs Hu Hc) as Hs'.
  split; [|split].
  - split; [discriminate|]. intros [E|[E|E]]; contradiction.
  - discriminate.
  - intros _. split; [reflexivity|]. split; [exact Hs'|].
    match goal with
    | |- context [mem category (map c_category (categories ?t))] =>
        assert (Hin : mem category (map c_category (categories t)) = true)
    end.
    { apply mem_In. unfold load_data. cbn [categories CATEGORIES_FILE with_categories].
      rewrite (read_categories_steady _ Hs'), map_app, filter_app, map_app.
      apply in_or_app. right. simpl. unfold object_category. simpl.
      rewrite (object_cell_word _ Hu), (object_cell_word _ Hc).
      rewrite eq_str_refl. now left. }
    rewrite Hin. reflexivity.
Qed.

(** Travel is added once; a second Travel and a Food are refused. *)
Lemma add_category_once_witness :
  snd (@add_category Binary64 pandas Alice.signed_up Alice.tracker0 "Travel")
  = true
  /\ CATEGORIES_FILE
       (fst (fst (@add_category Binary64 pandas Alice.signed_up Alice.tracker0
                    "Travel")))
     = [mkCategory "alice" "Travel"]
  /\ snd (@add_category Binary64 pandas
            (fst (fst (@add_category Binary64 pandas Alice.signed_up
                         Alice.tracker0 "Travel")))
            (snd (fst (@add_category Binary64 pandas Alice.signed_up
                         Alice.tracker0 "Travel")))
            "Travel") = false
  /\ snd (@add_category Binary64 pandas Alice.signed_up Alice.tracker0 "Food")
     = false.
Proof.
  pose proof (@add_category_once Binary64 pandas Alice.signed_up Alice.tracker0
                "Travel" eq_refl eq_refl (or_intror eq_refl))
    as [_ [_ Hadded]].
  pose proof (@add_category_once Binary64 pandas Alice.signed_up Alice.tracker0
                "Food" eq_refl eq_refl (or_intror eq_refl))
    as [Hrefused _].
  assert (Hok : snd (@add_category Binary64 pandas Alice.signed_up
                       Alice.tracker0 "Travel") = true)
    by (vm_compute; reflexivity).
  destruct (Hadded Hok) as [Hstate [_ Hagain]].
  split; [exact Hok|].
  rewrite Hstate. cbn [fst snd].
  split; [vm_compute; reflexivity|].
  split; [now rewrite Hagain|].
  apply Hrefused. right. left. now left.
Defined.

(** ** Budgets *)

Section Budgets.
Context `{Numeric} `{Reader}.

(** The row of the budget file is of the (user, category) pair. *)
Definition pair (u category : string) (b : BudgetRow string) : bool :=
  ((b_username b =? u) && (b_category b =? category))%string.

(** Rows of the budget file for one (user, category) pair. *)
Definition budget_rows (fs : Files) (u category : string)
  : list (BudgetRow string) :=
  filter (pair u category) (BUDGETS_FILE fs).

(** At most one budget row per (user, category) pair. *)
Definition budgets_unique (fs : Files) : Prop :=
  forall u category, (List.length (budget_rows fs u category) <= 1)%nat.

Lemma pair_true (u c : string) (b : BudgetRow string) :
  pair u c b = true <-> b_username b = u /\ b_category b = c.
Proof.
  unfold pair. now rewrite andb_true_iff, !String.eqb_eq.
Qed.

Lemma budget_of_object (u c : string) (b : BudgetRow string) :
  is_na u = false -> is_na c = false ->
  budget_of u c (object_budget b) = pair u c b.
Proof.
  intros Hu Hc. unfold budget_of, pair, object_budget. simpl.
  now rewrite !eq_str_object.
Qed.

Lemma filter_none {A} (f : A -> bool) (l : list A) :
  (forall x, In x l -> f x = false) -> filter f l = [].
Proof.
  induction l as [|a l IH]; simpl; intro Hf; [reflexivity|].
  rewrite (Hf a) by now left. apply IH. intros x Hx. apply Hf. now right.
Qed.

Lemma filter_all {A} (f : A -> bool) (l : list A) :
  (forall x, In x l -> f x = true) -> filter f l = l.
Proof.
  induction l as [|a l IH]; simpl; intro Hf; [reflexivity|].
  rewrite (Hf a) by now left. f_equal. apply IH. intros x Hx. apply Hf. now right.
Qed.

(** Dropping the rows of one pair empties that pair and leaves the rows
    of every other pair as they were. *)
Lemma dropped_same (u c : string) (l : list (BudgetRow string)) :
  filter (pair u c) (filter (fun b => negb (pair u c b)) l) = [].
Proof.
  apply filter_none. intros b Hb. apply filter_In in Hb.
  destruct Hb as [_ Hb]. now apply negb_true_iff in Hb.
Qed.

Lemma dropped_other (u c u' c' : string) (l : list (BudgetRow string)) :
  (u', c') <> (u, c) ->
  filter (pair u' c') (filter (fun b => negb (pair u c b)) l)
  = filter (pair u' c') l.
Proof.
  intro Hne. rewrite filter_filter. apply filter_ext. intro b.
  destruct (pair u' c' b) eqn:E'; [|apply andb_false_r].
  destruct (pair u c b) eqn:E; [|reflexivity].
  apply pair_true in E', E. destruct E as [E1 E2], E' as [E3 E4].
  exfalso. apply Hne. congruence.
Qed.

Lemma steady_budgets_filter (p : BudgetRow string -> bool)
    (file : list (BudgetRow string)) :
  steady_budgets file = true -> steady_budgets (filter p file) = true.
Proof.
  unfold steady_budgets. rewrite !forallb_forall. intros Hs b Hb.
  apply filter_In in Hb. now apply Hs.
Qed.

Lemma steady_budgets_app (file : list (BudgetRow string)) (u c : string)
    (a : amount) :
  steady_budgets file = true -> word u = true -> word c = true ->
  steady_budgets (file ++ [mkBudget u c a]) = true.
Proof.
  intros Hs Hu Hc. unfold steady_budgets. rewrite forallb_app.
  fold (steady_budgets file). rewrite Hs. simpl. now rewrite !steady_word.
Qed.

(** The frame of line 166, on a steady file: the rows of the file that
    are not of the pair. *)
Lemma masked_budgets (file : list (BudgetRow string)) (u c : string) :
  steady_budgets file = true -> is_na u = false -> is_na c = false ->
  filter (fun b => negb (budget_of u c b)) (read_budgets file)
  = map object_budget (filter (fun b => negb (pair u c b)) file).
Proof.
  intros Hs Hu Hc. rewrite (read_budgets_steady _ Hs), filter_map.
  f_equal. apply filter_ext. intro b. now rewrite budget_of_object.
Qed.

Lemma set_budget_file (fs : Files) (self : ExpenseTracker) (c : string)
    (a : amount) :
  steady_budgets (BUDGETS_FILE fs) = true ->
  is_na (username self) = false -> is_na c = false ->
  BUDGETS_FILE (fst (set_budget fs self c a))
  = filter (fun b => negb (pair (username self) c b)) (BUDGETS_FILE fs)
    ++ [mkBudget (username self) c a].
Proof.
  intros Hs Hu Hc. unfold set_budget. cbn [fst BUDGETS_FILE with_budgets].
  rewrite (masked_budgets _ _ _ Hs Hu Hc).
  unfold budgets_to_csv. rewrite map_app.
  change (map _ (map object_budget ?l))
    with (budgets_to_csv (map object_budget l)).
  now rewrite budgets_to_csv_steady by now apply steady_budgets_filter.
Qed.

Lemma remove_budget_file (fs : Files) (self : ExpenseTracker) (c : string) :
  steady_budgets (BUDGETS_FILE fs) = true ->
  is_na (username self) = false -> is_na c = false ->
  BUDGETS_FILE (fst (remove_budget fs self c))
  = filter (fun b => negb (pair (username self) c b)) (BUDGETS_FILE fs).
Proof.
  intros Hs Hu Hc. unfold remove_budget. cbn [fst BUDGETS_FILE with_budgets].
  rewrite (masked_budgets _ _ _ Hs Hu Hc).
  now rewrite budgets_to_csv_steady by now apply steady_budgets_filter.
Qed.

Lemma set_budget_rows (fs : Files) (self : ExpenseTracker)
    (c : string) (a : amount) (u' c' : string) :
  steady_budgets (BUDGETS_FILE fs) = true ->
  is_na (username self) = false -> is_na c = false ->
  budget_rows (fst (set_budget fs self c a)) u' c' =
  if ((u' =? username self) && (c' =? c))%string
  then [mkBudget (username self) c a]
  else budget_rows fs u' c'.
Proof.
  intros Hs Hu Hc. unfold budget_rows. rewrite set_budget_file by assumption.
  rewrite filter_app. simpl.
  destruct (String.eqb_spec u' (username self)) as [Eu|Eu];
    [destruct (String.eqb_spec c' c) as [Ec|Ec]|]; simpl.
  - subst. rewrite dropped_same. unfold pair. simpl.
    now rewrite !String.eqb_refl.
  - rewrite dropped_other by congruence. unfold pair at 2. simpl.
    destruct (String.eqb_spec c c'); [congruence|].
    rewrite andb_false_r. apply app_nil_r.
  - rewrite dropped_other by congruence. unfold pair at 2. simpl.
    destruct (String.eqb_spec (username self) u'); [congruence|].
    apply app_nil_r.
Qed.

Lemma remove_budget_rows (fs : Files) (self : ExpenseTracker)
    (c : string) (u' c' : string) :
  steady_budgets (BUDGETS_FILE fs) = true ->
  is_na (username self) = false -> is_na c = false ->
  budget_rows (fst (remove_budget fs self c)) u' c' =
  if ((u' =? username self) && (c' =? c))%string
  then []
  else budget_rows fs u' c'.
Proof.
  intros Hs Hu Hc. unfold budget_rows. rewrite remove_budget_file by assumption.
  destruct (String.eqb_spec u' (username self)) as [Eu|Eu];
    [destruct (String.eqb_spec c' c) as [Ec|Ec]|]; simpl.
  - subst. apply dropped_same.
  - apply dropped_other. congruence.
  - apply dropped_other. congruence.
Qed.

(** The tracker's view of one category after a reload of a steady file. *)
Lemma loaded_budget_rows (fs : Files) (self : ExpenseTracker) (c : string) :
  steady_budgets (BUDGETS_FILE fs) = true ->
  is_na (username self) = false -> is_na c = false ->
  filter (fun b => eq_str (b_category b) c) (budgets (load_data fs self))
  = map object_budget (budget_rows fs (username self) c).
Proof.
  intros Hs Hu Hc. unfold load_data, budget_rows. cbn [budgets].
  rewrite filter_filter, (read_budgets_steady _ Hs), filter_map.
  f_equal. apply filter_ext. intro b.
  change (eq_str (b_username (object_budget b)) (username self)
          && eq_str (b_category (object_budget b)) c)
    with (budget_of (username self) c (object_budget b)).
  now apply budget_of_object.
Qed.

End Budgets.

(** C4.  The claim fails for a category that [read_csv] does not read as
    the str it was written as.  After [set_budget('2024', 10)] the
    category column is read as int64: the reloaded tracker has no budget
    for '2024', the mask of the next [set_budget('2024', 20)] matches
    nothing, and the file ends with two rows for the pair
    (alice, 2024). *)
Theorem numeric_category_budget_twice :
  BUDGETS_FILE (fst Year.set10) = [Year.row10]
  /\ map b_category (budgets (snd Year.set10)) = [Int 2024]
  /\ budget_limit (snd Year.set10) "2024" = None
  /\ BUDGETS_FILE (fst Year.set20) = [Year.row10; Year.row20]
  /\ List.length (budget_rows (fst Year.set20) "alice" "2024") = 2%nat.
Proof. repeat split; vm_compute; reflexivity. Qed.


(** On a budget file of steady texts, for a user and a category that are
    words: after [set_budget] the budget file holds exactly one row for
    the (user, category) pair, the one just set, and so does the reloaded
    tracker; the file is steady again, so a second [set_budget] on the
    category leaves one row, the newer one; the rows of every other pair
    are untouched, and a file with at most one row per pair stays so. *)
Theorem set_budget_single_row `{Numeric} `{Reader}
    (fs : Files) (self : ExpenseTracker) (category : string) (a : amount) :
  steady_budgets (BUDGETS_FILE fs) = true ->
  word (username self) = true ->
  word category = true ->
  let u := username self in
  let fs' := fst (set_budget fs self category a) in
  let self' := snd (set_budget fs self category a) in
  budget_rows fs' u category = [mkBudget u category a]
  /\ filter (fun b => eq_str (b_category b) category) (budgets self')
     = [mkBudget (Str u) (Str category) a]
  /\ budget_limit self' category = Some a
  /\ steady_budgets (BUDGETS_FILE fs') = true
  /\ (forall a',
        budget_rows (fst (set_budget fs' self' category a')) u category
        = [mkBudget u category a'])
  /\ (forall u' c',
        (u', c') <> (u, category) -> budget_rows fs' u' c' = budget_rows fs u' c')
  /\ (budgets_unique fs -> budgets_unique fs').
Proof.
  intros Hs Hu Hc u fs' self'. subst u.
  pose proof (word_not_na _ Hu) as Hu'. pose proof (word_not_na _ Hc) as Hc'.
  assert (Hone : forall fs1 self1 a1,
             steady_budgets (BUDGETS_FILE fs1) = true ->
             username self1 = username self ->
             budget_rows (fst (set_budget fs1 self1 category a1))
                         (username self) category
             = [mkBudget (username self) category a1]).
  { intros fs1 self1 a1 Hs1 E.
    rewrite set_budget_rows; rewrite ?E; try assumption.
    now rewrite !String.eqb_refl. }
  assert (Hs' : steady_budgets (BUDGETS_FILE fs') = true).
  { unfold fs'. rewrite set_budget_file by assumption.
    apply steady_budgets_app; try assumption.
    now apply steady_budgets_filter. }
  assert (Hself : self' = load_data fs' self) by reflexivity.
  assert (Hview : filter (fun b => eq_str (b_category b) category) (budgets self')
                  = [mkBudget (Str (username self)) (Str category) a]).
  { rewrite Hself, loaded_budget_rows by assumption.
    unfold fs'. rewrite (Hone fs self a Hs eq_refl). simpl.
    unfold object_budget. simpl. now rewrite !object_cell_word. }
  split; [now apply Hone|]. split; [exact Hview|].
  split; [|split; [exact Hs'|split; [|split]]].
  - unfold budget_limit. rewrite <- hd_filter_find, Hview. reflexivity.
  - intro a'. apply Hone; [exact Hs' | now rewrite Hself].
  - intros u' c' Hne. unfold fs'. rewrite set_budget_rows by assumption.
    destruct (String.eqb_spec u' (username self)) as [Eu|Eu];
      [destruct (String.eqb_spec c' category) as [Ec|Ec]|]; simpl;
      try reflexivity.
    exfalso. apply Hne. congruence.
  - intros Huniq u' c'. unfold fs'. rewrite set_budget_rows by assumption.
    destruct (_ && _); [simpl; lia | apply Huniq].
Qed.

(** alice's budget file holds one row; setting Food again keeps it so,
    with the new amount. *)
Lemma set_budget_single_row_witness :
  @budget_rows Binary64
    (fst (@set_budget Binary64 pandas (fst Alice.budgeted) (snd Alice.budgeted)
            "Food" Alice.fifty))
    "alice" "Food"
  = [mkBudget "alice" "Food" Alice.fifty]
  /\ @budget_limit Binary64
       (snd (@set_budget Binary64 pandas (fst Alice.budgeted)
               (snd Alice.budgeted) "Food" Alice.fifty))
       "Food"
     = Some Alice.fifty.
Proof.
  pose proof (@set_budget_single_row Binary64 pandas
                (fst Alice.budgeted) (snd Alice.budgeted) "Food" Alice.fifty
                eq_refl eq_refl eq_refl)
    as [Hrow [_ [Hlimit _]]].
  split; [exact Hrow | exact Hlimit].
Defined.

(** On a budget file of steady texts, for a user and a category that are
    words: [remove_budget] leaves no row for the (user, category) pair and
    keeps every other row: the rows of any other pair are the same rows in
    the same order, a row is in the new file exactly when it was in the old
    one and is not of the pair, and when the pair had no row the files are
    unchanged.  Whatever the texts, the other three files are not written,
    the tracker is reloaded, and the call has no failure to report. *)
Theorem remove_budget_frame `{Numeric} `{Reader}
    (fs : Files) (self : ExpenseTracker) (category : string) :
  steady_budgets (BUDGETS_FILE fs) = true ->
  word (username self) = true ->
  word category = true ->
  let u := username self in
  let fs' := fst (remove_budget fs self category) in
  budget_rows fs' u category = []
  /\ (forall u' c',
        (u', c') <> (u, category) -> budget_rows fs' u' c' = budget_rows fs u' c')
  /\ (forall b,
        In b (BUDGETS_FILE fs') <->
        In b (BUDGETS_FILE fs) /\ ~ (b_username b = u /\ b_category b = category))
  /\ (budget_rows fs u category = [] -> fs' = fs)
  /\ steady_budgets (BUDGETS_FILE fs') = true
  /\ budget_limit (snd (remove_budget fs self category)) category = None
  /\ USERS_FILE fs' = USERS_FILE fs
  /\ EXPENSES_FILE fs' = EXPENSES_FILE fs
  /\ CATEGORIES_FILE fs' = CATEGORIES_FILE fs
  /\ snd (remove_budget fs self category) = load_data fs' self.
Proof.
  intros Hs Hu Hc u fs'. subst u.
  pose proof (word_not_na _ Hu) as Hu'. pose proof (word_not_na _ Hc) as Hc'.
  assert (Hfile : BUDGETS_FILE fs'
                  = filter (fun b => negb (pair (username self) category b))
                      (BUDGETS_FILE fs))
    by (now apply remove_budget_file).
  assert (Hs' : steady_budgets (BUDGETS_FILE fs') = true)
    by (rewrite Hfile; now apply steady_budgets_filter).
  assert (Hgone : budget_rows fs' (username self) category = []).
  { unfold fs'. rewrite remove_budget_rows by assumption.
    now rewrite !String.eqb_refl. }
  assert (Hself : snd (remove_budget fs self category) = load_data fs' self)
    by reflexivity.
  split; [exact Hgone|]. split; [|split; [|split; [|split; [exact Hs'|split]]]].
  - intros u' c' Hne. unfold fs'. rewrite remove_budget_rows by assumption.
    destruct (String.eqb_spec u' (username self)) as [Eu|Eu];
      [destruct (String.eqb_spec c' category) as [Ec|Ec]|]; simpl;
      try reflexivity.
    exfalso. apply Hne. congruence.
  - intro b. rewrite Hfile, filter_In, negb_true_iff, <- pair_true.
    destruct (pair (username self) category b); intuition congruence.
  - intro Hnone.
    assert (Hsame : BUDGETS_FILE fs' = BUDGETS_FILE fs).
    { rewrite Hfile. apply filter_all. intros b Hb.
      destruct (pair (username self) category b) eqn:E; [|reflexivity].
      exfalso. unfold budget_rows in Hnone.
      assert (Hin : In b (filter (pair (username self) category)
                            (BUDGETS_FILE fs)))
        by (apply filter_In; auto).
      rewrite Hnone in Hin. destruct Hin. }
    revert Hsame. unfold fs', remove_budget.
    cbn [fst BUDGETS_FILE with_budgets]. intros ->.
    now destruct fs.
  - unfold budget_limit. rewrite <- hd_filter_find, Hself.
    rewrite loaded_budget_rows by assumption. now rewrite Hgone.
  - repeat split.
Qed.

(** Removing a budget that is not there changes no file; removing alice's
    Food budget empties her budget file. *)
Lemma remove_budget_frame_witness :
  fst (@remove_budget Binary64 pandas Alice.signed_up Alice.tracker0 "Food")
  = Alice.signed_up
  /\ BUDGETS_FILE
       (fst (@remove_budget Binary64 pandas (fst Alice.budgeted)
               (snd Alice.budgeted) "Food"))
     = [].
Proof.
  pose proof (@remove_budget_frame Binary64 pandas Alice.signed_up
                Alice.tracker0 "Food" eq_refl eq_refl eq_refl)
    as [_ [_ [_ [Hnoop _]]]].
  split.
  - apply Hnoop. vm_compute. reflexivity.
  - vm_compute. reflexivity.
Defined.

(** ** Filtering *)

Section Filtering.
Context `{Numeric}.

(** The rows a filter call keeps, as the specification words it: the date
    within the two ends, the category among the given ones when some are
    given, the amount within each bound that is supplied. *)
Definition keeps (start_date end_date : Timestamp)
    (cats : option (list string)) (min_amount max_amount : option amount)
    (r : ExpenseRow Cell) : bool :=
  (start_date <=? e_date r) && (e_date r <=? end_date)
  && (if truthy cats then isin (e_category r) cats else true)
  && match min_amount with Some m => ge (e_amount r) m | None => true end
  && match max_amount with Some m => le (e_amount r) m | None => true end.

Lemma get_filtered_expenses_eq (self : ExpenseTracker) (s e : Timestamp)
    (cats : option (list string)) (mn mx : option amount) :
  get_filtered_expenses self s e cats mn mx
  = filter (keeps s e cats mn mx) (expenses self).
Proof.
  unfold get_filtered_expenses.
  destruct (expenses self) as [|r0 rest] eqn:E; [reflexivity|].
  apply filter_ext. intro r. unfold keeps.
  destruct (truthy cats), mn, mx; cbv beta zeta;
    rewrite Z.geb_leb, ?andb_true_r; reflexivity.
Qed.

Lemma keeps_true (s e : Timestamp) (cats : option (list string))
    (mn mx : option amount) (r : ExpenseRow Cell) :
  keeps s e cats mn mx r = true <->
  s <= e_date r <= e
  /\ (truthy cats = true -> isin (e_category r) cats = true)
  /\ (forall m, mn = Some m -> ge (e_amount r) m = true)
  /\ (forall m, mx = Some m -> le (e_amount r) m = true).
Proof.
  unfold keeps. rewrite !andb_true_iff, !Z.leb_le. split.
  - intros [[[[Hs He] Hc] Hmn] Hmx]. repeat split; try assumption.
    + intro Ht. now rewrite Ht in Hc.
    + intros m ->. exact Hmn.
    + intros m ->. exact Hmx.
  - intros [[Hs He] [Hc [Hmn Hmx]]]. repeat split; try assumption.
    + destruct (truthy cats); auto.
    + destruct mn; auto.
    + destruct mx; auto.
Qed.

End Filtering.

(** C5.  A filter call returns exactly the tracker's expenses dated from
    [start_date] to [end_date], both ends included; a category list that is
    not empty, a lower and an upper amount bound each restrict the result
    only when supplied; the rows come in ledger order, each as often as the
    ledger holds it.  With no expense the result is empty.  The tracker of
    a user holds the rows of the expense file, as [read_csv] reads it,
    with that user. *)
Theorem filter_by_date_range `{Numeric} `{Reader}
    (self : ExpenseTracker) (start_date end_date : Timestamp)
    (cats : option (list string)) (min_amount max_amount : option amount) :
  (forall r,
      In r (get_filtered_expenses self start_date end_date None None None) <->
      In r (expenses self) /\ start_date <= e_date r <= end_date)
  /\ (forall r,
        In r (get_filtered_expenses self start_date end_date cats
                min_amount max_amount) <->
        In r (expenses self)
        /\ start_date <= e_date r <= end_date
        /\ (truthy cats = true -> isin (e_category r) cats = true)
        /\ (forall m, min_amount = Some m -> ge (e_amount r) m = true)
        /\ (forall m, max_amount = Some m -> le (e_amount r) m = true))
  /\ get_filtered_expenses self start_date end_date cats min_amount max_amount
     = filter (keeps start_date end_date cats min_amount max_amount)
         (expenses self)
  /\ (expenses self = [] ->
      get_filtered_expenses self start_date end_date cats min_amount max_amount
      = [])
  /\ (forall fs u,
        expenses (new_tracker fs u)
        = filter (fun r => eq_str (e_username r) u)
            (read_expenses (EXPENSES_FILE fs))).
Proof.
  split; [|split; [|split; [|split]]].
  - intro r. rewrite get_filtered_expenses_eq, filter_In, keeps_true.
    simpl. intuition discriminate.
  - intro r. now rewrite get_filtered_expenses_eq, filter_In, keeps_true.
  - apply get_filtered_expenses_eq.
  - intro E. unfold get_filtered_expenses. now rewrite E.
  - reflexivity.
Qed.

(** Both ends count: the 15th alone gives lunch and not dinner, the 15th
    to the 16th gives dinner too. *)
Lemma filter_by_date_range_witness :
  In (stored Alice.lunch)
     (get_filtered_expenses Alice.two_meals Alice.jan15 Alice.jan15 None None None)
  /\ ~ In (stored Alice.dinner)
       (get_filtered_expenses Alice.two_meals Alice.jan15 Alice.jan15 None None None)
  /\ In (stored Alice.dinner)
     (get_filtered_expenses Alice.two_meals Alice.jan15 Alice.jan16 None None None).
Proof.
  pose proof (@filter_by_date_range Binary64 pandas Alice.two_meals Alice.jan15
                Alice.jan15 None None None) as [Hday _].
  pose proof (@filter_by_date_range Binary64 pandas Alice.two_meals Alice.jan15
                Alice.jan16 None None None) as [Hdays _].
  assert (E : expenses Alice.two_meals = [stored Alice.lunch; stored Alice.dinner])
    by (vm_compute; reflexivity).
  split; [|split].
  - apply (proj2 (Hday (stored Alice.lunch))). rewrite E.
    split; [now left|]. vm_compute. split; discriminate.
  - intro Hin. apply (proj1 (Hday (stored Alice.dinner))) in Hin.
    destruct Hin as [_ [_ Hend]]. vm_compute in Hend. now apply Hend.
  - apply (proj2 (Hdays (stored Alice.dinner))). rewrite E.
    split; [right; now left|]. vm_compute. split; discriminate.
Defined.

(** C6.  Adding a category list, a lower bound or an upper bound to a
    filter call that did not have it, the dates being the same, removes
    rows and adds none: every row of the narrowed result is a row of the
    wider one, and the narrowed result is the wider one filtered again. *)
Theorem narrowing_only_removes `{Numeric}
    (self : ExpenseTracker) (start_date end_date : Timestamp)
    (cats cats' : option (list string))
    (min_amount min_amount' max_amount max_amount' : option amount) :
  truthy cats = false \/ cats = cats' ->
  min_amount = None \/ min_amount = min_amount' ->
  max_amount = None \/ max_amount = max_amount' ->
  incl (get_filtered_expenses self start_date end_date cats' min_amount' max_amount')
       (get_filtered_expenses self start_date end_date cats min_amount max_amount)
  /\ get_filtered_expenses self start_date end_date cats' min_amount' max_amount'
     = filter (keeps start_date end_date cats' min_amount' max_amount')
         (get_filtered_expenses self start_date end_date cats min_amount
            max_amount).
Proof.
  intros Hc Hmn Hmx.
  assert (Himp : forall r,
             keeps start_date end_date cats' min_amount' max_amount' r = true ->
             keeps start_date end_date cats min_amount max_amount r = true).
  { intro r. rewrite !keeps_true.
    intros [Hd [Hc' [Hmn' Hmx']]]. split; [exact Hd|]. repeat split.
    - destruct Hc as [Hc| ->]; [congruence | exact Hc'].
    - destruct Hmn as [-> | ->]; [discriminate | exact Hmn'].
    - destruct Hmx as [-> | ->]; [discriminate | exact Hmx']. }
  rewrite !get_filtered_expenses_eq. split.
  - intros r Hr. apply filter_In in Hr. apply filter_In.
    destruct Hr as [Hin Hk]. auto.
  - rewrite filter_filter. apply filter_ext_in. intros r _.
    destruct (keeps start_date end_date cats' min_amount' max_amount' r) eqn:E.
    + now rewrite (Himp r E).
    + symmetry. apply andb_false_r.
Qed.

(** alice's two expenses: asking for Food of at least 50.00 keeps lunch
    out of lunch and dinner. *)
Lemma narrowing_only_removes_witness :
  incl (get_filtered_expenses Alice.two_meals Alice.jan15 Alice.jan17
          (Some ["Food"]) (Some Alice.fifty) None)
       (get_filtered_expenses Alice.two_meals Alice.jan15 Alice.jan17
          None None None)
  /\ get_filtered_expenses Alice.two_meals Alice.jan15 Alice.jan17
       (Some ["Food"]) (Some Alice.fifty) None
     = filter (keeps Alice.jan15 Alice.jan17 (Some ["Food"])
                 (Some Alice.fifty) None)
         (get_filtered_expenses Alice.two_meals Alice.jan15 Alice.jan17
            None None None).
Proof.
  apply (@narrowing_only_removes Binary64 Alice.two_meals Alice.jan15
           Alice.jan17 None (Some ["Food"]) None (Some Alice.fifty) None None).
  - left. reflexivity.
  - left. reflexivity.
  - left. reflexivity.
Defined.

(** C10.  An empty category list is no restriction: the call returns what
    it returns with no list at all, not an empty result.  For alice, both
    expenses come back. *)
Theorem empty_categories_unrestricted :
  (forall (N : Numeric) (self : ExpenseTracker) (start_date end_date : Timestamp)
          (min_amount max_amount : option amount),
      get_filtered_expenses self start_date end_date (Some []) min_amount
        max_amount
      = get_filtered_expenses self start_date end_date None min_amount
          max_amount)
  /\ get_filtered_expenses Alice.two_meals Alice.jan15 Alice.jan17
       (Some []) None None
     = [stored Alice.lunch; stored Alice.dinner].
Proof.
  split.
  - reflexivity.
  - vm_compute. reflexivity.
Qed.

(** ** Bulk upload *)

(** [t] occurs in [s]. *)
Definition contains (s t : string) : Prop :=
  exists a b, s = (a ++ t ++ b)%string.

Fixpoint occurs (t s : string) : bool :=
  prefix t s
  || match s with
     | String _ rest => occurs t rest
     | EmptyString => false
     end.

Lemma append_assoc (a b c : string) : ((a ++ b) ++ c = a ++ b ++ c)%string.
Proof. induction a as [|x a IH]; simpl; [reflexivity | now rewrite IH]. Qed.

Lemma append_empty (a : string) : (a ++ "" = a)%string.
Proof. induction a as [|x a IH]; simpl; [reflexivity | now rewrite IH]. Qed.

Lemma prefix_append (t b : string) : prefix t (t ++ b) = true.
Proof.
  induction t as [|x t IH]; simpl; [now destruct b|].
  destruct (ascii_dec x x); [exact IH | congruence].
Qed.

Lemma occurs_eq (t s : string) :
  occurs t s
  = prefix t s
    || match s with
       | String _ rest => occurs t rest
       | EmptyString => false
       end.
Proof. destruct s; reflexivity. Qed.

Lemma contains_occurs (s t : string) : contains s t -> occurs t s = true.
Proof.
  intros [a [b ->]]. induction a as [|x a IH].
  - change ("" ++ t ++ b)%string with (t ++ b)%string.
    now rewrite occurs_eq, prefix_append.
  - change (String x a ++ t ++ b)%string with (String x (a ++ t ++ b)).
    rewrite occurs_eq, IH. apply orb_true_r.
Qed.

Lemma contains_trans (s t v : string) : contains s t -> contains t v -> contains s v.
Proof.
  intros [a [b ->]] [c [d ->]]. exists (a ++ c)%string, (d ++ b)%string.
  now rewrite !append_assoc.
Qed.

Lemma concat_contains (sep x : string) (l : list string) :
  In x l -> contains (String.concat sep l) x.
Proof.
  induction l as [|y l IH]; [intros []|].
  intros [->|Hin].
  - destruct l as [|z l]; simpl.
    + exists ""%string, ""%string. simpl. now rewrite append_empty.
    + exists ""%string. eexists. simpl. reflexivity.
  - destruct l as [|z l]; [destruct Hin|].
    destruct (IH Hin) as [a [b E]].
    change (String.concat sep (y :: z :: l))
      with (y ++ sep ++ String.concat sep (z :: l))%string.
    rewrite E. exists (y ++ sep ++ a)%string, b.
    now rewrite !append_assoc.
Qed.

Section BulkRun.
Context `{Numeric} `{Reader}.
Variable to_datetime : Cell -> option Timestamp.
Variable type_error : amount -> string -> string.

(** The row of [df] for a row of the upload whose date was read as [d]. *)
Definition to_df (r : CsvRow) (d : Timestamp) : DfRow :=
  mkDfRow _ d (r_category r) (r_amount r) (r_description r).

(** How far the loop gets: it completes, a call raises, or a call leaves
    the tables of this development. *)
Inductive Ending :=
| Completed
| Raising (e : string)
| Leaving.

(** The rows the loop gets through, each with what [add_expense] answered
    for it in the state left by the rows above it; the state after them;
    and how the loop ends. *)
Record Walk := mkWalk {
  answered : list (DfRow * (bool * string));
  reached : Files * ExpenseTracker;
  ending : Ending
}.

Fixpoint walk (df : list DfRow) (fs : Files) (self : ExpenseTracker) : Walk :=
  match df with
  | [] => mkWalk [] (fs, self) Completed
  | row :: rest =>
      match add_expense_row type_error fs self row with
      | Returned fs' self' reply =>
          let w := walk rest fs' self' in
          mkWalk ((row, reply) :: answered w) (reached w) (ending w)
      | Raised e => mkWalk [] (fs, self) (Raising e)
      | Outside => mkWalk [] (fs, self) Leaving
      end
  end.

Definition passed (tr : list (DfRow * (bool * string))) : list DfRow :=
  map fst (filter (fun p => fst (snd p)) tr).

(** One message for each row that failed, in row order. *)
Definition failures (tr : list (DfRow * (bool * string))) : list string :=
  map (fun p => row_error (fst p) (snd (snd p)))
      (filter (fun p => negb (fst (snd p))) tr).

(** The day and the amount of each row, in row order: the two columns of
    the expense file that [read_csv] does not type again. *)
Definition ledger {C} (rows : list (ExpenseRow C)) : list (Timestamp * amount) :=
  map (fun r => (e_date r, e_amount r)) rows.

(** What a row adds to the ledger when it is written. *)
Definition written (row : DfRow) : list (Timestamp * amount) :=
  match f_amount row with
  | Num a => [(strftime_ymd (f_date row), a)]
  | Txt _ => []
  end.

(** The row carries a str category and a number. *)
Definition numeric (row : DfRow) : bool :=
  match f_category row, f_amount row with
  | Str _, Num _ => true
  | _, _ => false
  end.

Lemma bulk_loop_eq (df : list DfRow) :
  forall (fs : Files) (self : ExpenseTracker) (errors : list string),
    bulk_loop type_error df fs self errors
    = let w := walk df fs self in
      match ending w with
      | Completed =>
          Finished (fst (reached w)) (snd (reached w))
            (errors ++ failures (answered w))
      | Raising e => Aborted (fst (reached w)) (snd (reached w)) e
      | Leaving => Beyond
      end.
Proof.
  induction df as [|row rest IH]; intros fs self errors; simpl.
  - unfold failures. simpl. now rewrite app_nil_r.
  - destruct (add_expense_row type_error fs self row)
      as [fs' self' [success message]|e|]; [|reflexivity|reflexivity].
    rewrite IH. simpl. destruct (ending (walk rest fs' self')); try reflexivity.
    unfold failures. simpl. destruct success; simpl; [reflexivity|].
    now rewrite <- app_assoc.
Qed.

Lemma map_snd_combine {A B} (l : list A) (l' : list B) :
  List.length l = List.length l' -> map snd (combine l l') = l'.
Proof.
  revert l'. induction l as [|x l IH]; intros [|y l'] E; simpl in *;
    try discriminate; [reflexivity|].
  f_equal. apply IH. now injection E.
Qed.

Lemma ledger_read (file : list (ExpenseRow string)) :
  ledger (read_expenses file) = ledger file.
Proof.
  unfold ledger, read_expenses. rewrite map_map.
  set (cells := combine
                  (combine (read_column (map e_username file))
                           (read_column (map e_category file)))
                  (read_column (map e_description file))).
  transitivity (map (fun r => (e_date r, e_amount r))
                    (map snd (combine cells file))).
  - rewrite map_map. apply map_ext. intros [[[u c] d] r]. reflexivity.
  - rewrite map_snd_combine; [reflexivity|]. unfold cells.
    rewrite !length_combine, !read_column_length, !length_map. lia.
Qed.

Lemma ledger_to_csv (rows : list (ExpenseRow Cell)) :
  ledger (expenses_to_csv rows) = ledger rows.
Proof. unfold ledger, expenses_to_csv. now rewrite map_map. Qed.

Lemma ledger_app {C} (l l' : list (ExpenseRow C)) :
  ledger (l ++ l') = ledger l ++ ledger l'.
Proof. apply map_app. Qed.

(** What one call does to the ledger: it adds the row when it answers
    true and nothing otherwise. *)
Lemma add_expense_ledger (fs : Files) (self : ExpenseTracker) (e : ExpenseData) :
  ledger (EXPENSES_FILE (fst (fst (add_expense fs self e))))
  = ledger (EXPENSES_FILE fs)
    ++ (if fst (snd (add_expense fs self e))
        then [(strftime_ymd (d_date e), d_amount e)] else []).
Proof.
  rewrite add_expense_eq.
  destruct (negb _); [simpl; now rewrite app_nil_r|].
  destruct (exceeds self e); [simpl; now rewrite app_nil_r|].
  cbn [fst snd EXPENSES_FILE with_expenses].
  now rewrite ledger_to_csv, ledger_app, ledger_read.
Qed.

Lemma add_expense_row_ledger (fs : Files) (self : ExpenseTracker) (row : DfRow) :
  forall fs' self' reply,
    add_expense_row type_error fs self row = Returned fs' self' reply ->
    ledger (EXPENSES_FILE fs')
    = ledger (EXPENSES_FILE fs) ++ (if fst reply then written row else []).
Proof.
  intros fs' self' reply. unfold add_expense_row, written.
  destruct (f_category row) as [c| | | |]; destruct (f_amount row) as [a|s];
    try (destruct (forallb _ _); [|discriminate]; intro E; inversion E; subst;
         simpl; now rewrite app_nil_r).
  - pose proof (add_expense_ledger fs self
                  (mkData _ (username self) (f_date row) c a (f_description row)))
      as Hl.
    destruct (add_expense fs self _) as [[fs1 self1] reply1].
    intro E. inversion E. subst. exact Hl.
  - destruct (negb _).
    + intro E. inversion E. subst. simpl. now rewrite app_nil_r.
    + destruct (filter _ _); discriminate.
Qed.

Lemma walk_ledger (df : list DfRow) :
  forall (fs : Files) (self : ExpenseTracker),
    ledger (EXPENSES_FILE (fst (reached (walk df fs self))))
    = ledger (EXPENSES_FILE fs)
      ++ flat_map written (passed (answered (walk df fs self))).
Proof.
  induction df as [|row rest IH]; intros fs self; simpl.
  - now rewrite app_nil_r.
  - destruct (add_expense_row type_error fs self row)
      as [fs' self' reply|e|] eqn:E; simpl; try now rewrite app_nil_r.
    rewrite IH, (add_expense_row_ledger _ _ _ _ _ _ E), <- app_assoc.
    f_equal. unfold passed. simpl. destruct (fst reply); reflexivity.
Qed.

(** The rows answered are the first rows of [df], and all of them when
    the loop completes. *)
Lemma walk_rows (df : list DfRow) :
  forall (fs : Files) (self : ExpenseTracker),
    exists rest,
      df = map fst (answered (walk df fs self)) ++ rest
      /\ (ending (walk df fs self) = Completed -> rest = []).
Proof.
  induction df as [|row rest IH]; intros fs self; simpl.
  - exists []. auto.
  - destruct (add_expense_row type_error fs self row)
      as [fs' self' reply|e|]; simpl.
    + destruct (IH fs' self') as [rest' [E Hc]]. exists rest'.
      split; [now rewrite <- E | exact Hc].
    + exists (row :: rest). split; [reflexivity | discriminate].
    + exists (row :: rest). split; [reflexivity | discriminate].
Qed.

(** The loop completes on rows that carry a str category and a number. *)
Lemma walk_numeric (df : list DfRow) :
  forall (fs : Files) (self : ExpenseTracker),
    forallb numeric df = true -> ending (walk df fs self) = Completed.
Proof.
  induction df as [|row rest IH]; intros fs self Hn; simpl; [reflexivity|].
  simpl in Hn. apply andb_true_iff in Hn. destruct Hn as [Hrow Hrest].
  unfold add_expense_row. unfold numeric in Hrow.
  destruct (f_category row); try discriminate.
  destruct (f_amount row); try discriminate.
  destruct (add_expense fs self _) as [[fs1 self1] reply1]. simpl.
  now apply IH.
Qed.

(** A call raises only on a str amount in a category that is available
    and has a budget. *)
Lemma walk_raises (df : list DfRow) :
  forall (fs : Files) (self : ExpenseTracker) (e : string),
    ending (walk df fs self) = Raising e ->
    exists row rest c s,
      df = map fst (answered (walk df fs self)) ++ row :: rest
      /\ f_category row = Str c /\ f_amount row = Txt s
      /\ In (Str c) (get_available_categories (snd (reached (walk df fs self))))
      /\ budget_limit (snd (reached (walk df fs self))) c <> None
      /\ e = type_error (category_total (snd (reached (walk df fs self))) c) s.
Proof.
  induction df as [|row rest IH]; intros fs self e; simpl; [discriminate|].
  destruct (add_expense_row type_error fs self row)
    as [fs' self' reply|e'|] eqn:E; simpl; [| |discriminate].
  - intro He. destruct (IH fs' self' e He) as [row' [rest' [c [s [Hdf Hrest]]]]].
    exists row', rest', c, s. split; [now rewrite <- Hdf | exact Hrest].
  - intro He. inversion He. subst e'. clear He.
    exists row, rest. revert E. unfold add_expense_row.
    destruct (f_category row) as [c| | | |]; destruct (f_amount row) as [a|s];
      try (destruct (forallb _ _); discriminate).
    + destruct (add_expense fs self _) as [[fs1 self1] reply1]. discriminate.
    + destruct (mem c (get_available_categories self)) eqn:Hm;
        cbn [negb]; [|discriminate].
      destruct (filter (fun b => eq_str (b_category b) c) (budgets self))
        as [|b l] eqn:Hb; [discriminate|].
      intro E. inversion E. exists c, s. cbn [reached snd answered map app].
      repeat split; try reflexivity; [now apply mem_In|].
      unfold budget_limit. rewrite <- hd_filter_find, Hb. discriminate.
Qed.

Lemma failures_none (tr : list (DfRow * (bool * string))) :
  failures tr = [] <-> forall p, In p tr -> fst (snd p) = true.
Proof.
  unfold failures. induction tr as [|[row [ok msg]] tr IH]; simpl.
  - split; [intros _ p [] | reflexivity].
  - destruct ok; simpl.
    + rewrite IH. split.
      * intros Hall p [<-|Hp]; [reflexivity | now apply Hall].
      * intros Hall p Hp. apply Hall. now right.
    + split; [discriminate|]. intro Hall.
      specialize (Hall (row, (false, msg)) (or_introl eq_refl)). discriminate.
Qed.

Lemma row_error_contains (row : DfRow) (message : string) :
  contains (row_error row message) (str (f_description row)).
Proof.
  unfold row_error. exists "Row with "%string, (": " ++ message)%string.
  reflexivity.
Qed.

Lemma coerce_dates_none (rows : list CsvRow) :
  coerce_dates to_datetime rows = None <->
  exists r, In r rows /\ to_datetime (r_date r) = None.
Proof.
  induction rows as [|r rows IH]; simpl.
  - split; [discriminate | intros [r [[] _]]].
  - destruct (to_datetime (r_date r)) as [d|] eqn:Ed.
    + destruct (coerce_dates to_datetime rows) as [df|].
      * split; [discriminate|]. intros [r' [[<-|Hin] E]]; [congruence|].
        assert (Hex : exists r, In r rows /\ to_datetime (r_date r) = None)
          by (exists r'; auto).
        apply IH in Hex. discriminate.
      * split; [|reflexivity]. intros _.
        destruct (proj1 IH eq_refl) as [r' [Hin E]]. exists r'. auto.
    + split; [|reflexivity]. intros _. exists r. auto.
Qed.

Lemma coerce_dates_some (rows : list CsvRow) :
  forall df,
    coerce_dates to_datetime rows = Some df <->
    Forall2 (fun r x => exists d, to_datetime (r_date r) = Some d
                                  /\ x = to_df r d) rows df.
Proof.
  induction rows as [|r rows IH]; intro df; simpl.
  - split.
    + intro E. inversion E. constructor.
    + intro F. now inversion F.
  - split.
    + destruct (to_datetime (r_date r)) as [d|] eqn:Ed; [|discriminate].
      destruct (coerce_dates to_datetime rows) as [df'|]; [|discriminate].
      intro E. inversion E. subst. constructor.
      * now exists d.
      * now apply IH.
    + intro F. inversion F as [|r0 x rows0 df' [d [Ed Ex]] F']. subst.
      rewrite Ed. apply IH in F'. now rewrite F'.
Qed.

Lemma required_cols_present (cols : list string) :
  forallb (fun c => existsb (String.eqb c) cols) required_cols = true <->
  forall c, In c required_cols -> In c cols.
Proof.
  rewrite forallb_forall. split; intros Hall c Hc.
  - specialize (Hall c Hc). apply existsb_exists in Hall.
    destruct Hall as [x [Hx E]]. apply String.eqb_eq in E. now subst.
  - apply existsb_exists. exists c. split; [now apply Hall | apply String.eqb_refl].
Qed.

(** What the call returns once the loop has run. *)
Definition outcome (fs : Files) (self : ExpenseTracker) (df : list DfRow)
  : option (Files * ExpenseTracker * (bool * string)) :=
  let w := walk df fs self in
  match ending w with
  | Completed =>
      Some (reached w,
            match failures (answered w) with
            | [] => (true, MSG_ALL_ADDED)
            | errors => (false, String.concat newline errors)
            end)
  | Raising e => Some (reached w, (false, (MSG_ERROR ++ e)%string))
  | Leaving => None
  end.

(** [add_bulk_expenses] by its exits. *)
Lemma add_bulk_expenses_eq (fs : Files) (self : ExpenseTracker)
    (file : UploadedFile) :
  add_bulk_expenses to_datetime type_error fs self file =
  match file with
  | Unreadable e => Some (fs, self, (false, (MSG_ERROR ++ e)%string))
  | Frame columns rows =>
      if negb (forallb (fun c => existsb (String.eqb c) columns) required_cols)
      then Some (fs, self, (false, MSG_COLUMNS))
      else
        match coerce_dates to_datetime rows with
        | None => Some (fs, self, (false, MSG_DATES))
        | Some df => outcome fs self df
        end
  end.
Proof.
  unfold add_bulk_expenses, outcome. destruct file as [e|columns rows];
    [reflexivity|].
  destruct (negb _); [reflexivity|].
  destruct (coerce_dates _ _) as [df|]; [|reflexivity].
  rewrite bulk_loop_eq. simpl.
  destruct (walk df fs self) as [tr [fs' self'] [|e|]]; simpl; try reflexivity.
  destruct (failures tr); reflexivity.
Qed.

End BulkRun.

(** *** A reader of YYYY-MM-DD dates

    [pd.to_datetime] on the texts the upload message asks for; a blank
    cell is NaT.  It is the date reader of the scenarios below; pandas
    reads other spellings and other cells too, which is why the operations
    take the reader as a parameter. *)

Definition digit (c : ascii) : option Z :=
  if is_digit c then Some (code c - 48) else None.

Fixpoint number (cs : list ascii) (acc : Z) : option Z :=
  match cs with
  | [] => Some acc
  | c :: rest =>
      match digit c with
      | Some d => number rest (10 * acc + d)
      | None => None
      end
  end.

Definition leap_year (y : Z) : bool :=
  ((y mod 4 =? 0) && negb (y mod 100 =? 0)) || (y mod 400 =? 0).

Definition days_in_month (y m : Z) : Z :=
  if m =? 2 then (if leap_year y then 29 else 28)
  else if (m =? 4) || (m =? 6) || (m =? 9) || (m =? 11) then 30
  else 31.

(** Days from 1970-01-01 to the given day of the proleptic Gregorian
    calendar. *)
Definition days_from_civil (y m d : Z) : Z :=
  let y' := if m <=? 2 then y - 1 else y in
  let era := y' / 400 in
  let yoe := y' - era * 400 in
  let mp := if m <=? 2 then m + 9 else m - 3 in
  let doy := (153 * mp + 2) / 5 + d - 1 in
  let doe := yoe * 365 + yoe / 4 - yoe / 100 + doy in
  era * 146097 + doe - 719468.

Definition iso_to_datetime (cell : Cell) : option Timestamp :=
  match cell with
  | Str text =>
      match list_ascii_of_string text with
      | [y1; y2; y3; y4; "-"%char; m1; m2; "-"%char; d1; d2] =>
          match number [y1; y2; y3; y4] 0, number [m1; m2] 0, number [d1; d2] 0 with
          | Some y, Some m, Some d =>
              if (1 <=? m) && (m <=? 12) && (1 <=? d) && (d <=? days_in_month y m)
              then Some (days_from_civil y m d * NS_PER_DAY)
              else None
          | _, _, _ => None
          end
      | _ => None
      end
  | _ => None
  end.

Example iso_dates :
  iso_to_datetime (Str "2024-01-15") = Some Alice.jan15
  /\ iso_to_datetime (Str "1970-01-01") = Some 0
  /\ iso_to_datetime (Str "2024-02-29") = Some (19782 * NS_PER_DAY)
  /\ iso_to_datetime (Str "2023-02-29") = None
  /\ iso_to_datetime (Str "15/01/2024") = None
  /\ iso_to_datetime NaN = None.
Proof. repeat split. Qed.


(** ** Uploads on alice's files *)

Module Upload.
Local Existing Instance Binary64.
Local Existing Instance pandas.

Definition header : list string := ["date"; "category"; "amount"; "description"].

(** A row that passes, a row of an unknown category, and one more with a
    blank description. *)
Definition csv : UploadedFile :=
  Frame header
    [ mkCsvRow _ (Str "2024-01-01") (Str "Food") (Num 20%float) (Str "lunch");
      mkCsvRow _ (Str "2024-01-02") (Str "NoSuchCat") (Num 5%float) (Str "x");
      mkCsvRow _ (Str "2024-01-03") (Str "NoSuchCat") (Num 5%float) NaN ].

(** The same rows under a header without the amount column. *)
Definition no_amount : UploadedFile :=
  Frame ["date"; "category"; "description"] [].

(** A first row that passes, then a date that is no date. *)
Definition bad_date_row : CsvRow :=
  mkCsvRow _ (Str "2024-02-30") (Str "Food") (Num 5%float) (Str "y").

Definition bad_date : UploadedFile :=
  Frame header
    [ mkCsvRow _ (Str "2024-01-01") (Str "Food") (Num 20%float) (Str "lunch");
      bad_date_row ].

Definition jan1 : Timestamp := 19723 * NS_PER_DAY.

(** The text of the TypeError that [0 + 'abc'] raises. *)
Definition type_error (total : amount) (s : string) : string :=
  "unsupported operand type(s) for +: 'int' and 'str'".

Definition result :=
  add_bulk_expenses iso_to_datetime type_error Alice.signed_up Alice.tracker0 csv.
Definition no_amount_result :=
  add_bulk_expenses iso_to_datetime type_error Alice.signed_up Alice.tracker0
    no_amount.
Definition bad_date_result :=
  add_bulk_expenses iso_to_datetime type_error Alice.signed_up Alice.tracker0
    bad_date.

(** lunch as the dict of its row. *)
Definition lunch : ExpenseData :=
  mkData _ "alice" jan1 "Food" 20%float (Str "lunch").
Definition after_lunch : Files * ExpenseTracker :=
  fst (add_expense Alice.signed_up Alice.tracker0 lunch).

(** An amount column of dtype object: a row of an unknown category, then
    a row of Food, for which alice has a budget. *)
Definition first : CsvRow :=
  mkCsvRow _ (Str "2024-01-01") (Str "NoSuchCat") (Txt "abc") (Str "first").
Definition second : CsvRow :=
  mkCsvRow _ (Str "2024-01-02") (Str "Food") (Txt "abc") (Str "second").

Definition text_amounts : UploadedFile := Frame header [first; second].

(** What [add_expense] answers for the first row. *)
Definition first_call : Call :=
  add_expense_row type_error (fst Alice.budgeted) (snd Alice.budgeted)
    (mkDfRow _ jan1 (Str "NoSuchCat") (Txt "abc") (Str "first")).

Definition raised (text : amount -> string -> string) :=
  add_bulk_expenses iso_to_datetime text (fst Alice.budgeted)
    (snd Alice.budgeted) text_amounts.

End Upload.



(** ** The boundary on exact hundredths *)

Module Hundredths.
Local Existing Instance Cents.
Local Existing Instance pandas.

(** bob has spent 60.00 of a Food budget of 100.00. *)
Definition files : Files :=
  mkFiles _ [] [mkExpense "bob" 0 "Food" 6000 "market"] []
    [mkBudget "bob" "Food" 10000].

Definition bob : ExpenseTracker := new_tracker files "bob".

Definition spend (hundredths : Z) :=
  add_expense files bob
    (mkData _ "bob" NS_PER_DAY "Food" hundredths (Str "more")).

End Hundredths.

Example hundredths_boundary :
  snd (Hundredths.spend 4000) = (true, MSG_ADDED)
  /\ snd (Hundredths.spend 4001) = (false, MSG_OVER_BUDGET).
Proof. split; reflexivity. Qed.

(** * Further properties of the code

    What follows covers the rest of the tracker and its callers: how the
    requests compose, what they leave alone, and what survives a whole
    session. *)

(** ** One request after another *)

Section Requests.
Context `{Numeric} `{Reader}.
Variable to_datetime : Cell -> option Timestamp.
Variable type_error : amount -> string -> string.

(** The tracker is the one [ExpenseTracker(username)] would build now. *)
Definition fresh (fs : Files) (self : ExpenseTracker) : Prop :=
  self = new_tracker fs (username self).

Lemma add_expense_state (fs : Files) (self : ExpenseTracker) (e : ExpenseData) :
  fst (add_expense fs self e) =
  if fst (snd (add_expense fs self e))
  then
    let fs' :=
      with_expenses fs
        (expenses_to_csv (read_expenses (EXPENSES_FILE fs) ++ [stored e])) in
    (fs', load_data fs' self)
  else (fs, self).
Proof.
  rewrite add_expense_eq.
  destruct (negb _); [reflexivity|].
  destruct (exceeds self e); reflexivity.
Qed.

Lemma add_category_state (fs : Files) (self : ExpenseTracker) (c : string) :
  fst (add_category fs self c) =
  if snd (add_category fs self c)
  then
    let fs' :=
      with_categories fs
        (categories_to_csv
           (read_categories (CATEGORIES_FILE fs)
            ++ [mkCategory (Str (username self)) (Str c)])) in
    (fs', load_data fs' self)
  else (fs, self).
Proof.
  unfold add_category. destruct (_ || _ || _); reflexivity.
Qed.

Lemma load_data_fresh (fs : Files) (self : ExpenseTracker) :
  fresh fs (load_data fs self).
Proof. reflexivity. Qed.

Lemma add_expense_fresh (fs : Files) (self : ExpenseTracker) (e : ExpenseData) :
  fresh fs self ->
  fresh (fst (fst (add_expense fs self e))) (snd (fst (add_expense fs self e)))
  /\ username (snd (fst (add_expense fs self e))) = username self.
Proof.
  intro Hf. rewrite add_expense_state.
  destruct (fst (snd (add_expense fs self e))); split;
    reflexivity || exact Hf.
Qed.

(** What every call that returns keeps, the loop keeps. *)
Lemma walk_preserves (P : Files -> ExpenseTracker -> Prop) :
  (forall fs self row fs' self' reply,
      P fs self ->
      add_expense_row type_error fs self row = Returned fs' self' reply ->
      P fs' self') ->
  forall df fs self,
    P fs self ->
    P (fst (reached (walk type_error df fs self)))
      (snd (reached (walk type_error df fs self))).
Proof.
  intros Hstep df. induction df as [|row rest IH]; intros fs self HP; simpl.
  - exact HP.
  - destruct (add_expense_row type_error fs self row)
      as [fs' self' reply|e|] eqn:E; simpl; try exact HP.
    apply IH. now apply (Hstep fs self row fs' self' reply).
Qed.

(** A call on a row that returns has kept the state, or is a call on an
    [ExpenseData]. *)
Lemma add_expense_row_returned (fs : Files) (self : ExpenseTracker)
    (row : DfRow) (fs' : Files) (self' : ExpenseTracker) (reply : bool * string) :
  add_expense_row type_error fs self row = Returned fs' self' reply ->
  (fs', self') = (fs, self) /\ fst reply = false
  \/ exists e,
       d_username e = username self
       /\ d_date e = f_date row
       /\ f_category row = Str (d_category e)
       /\ f_amount row = Num (d_amount e)
       /\ d_description e = f_description row
       /\ add_expense fs self e = (fs', self', reply).
Proof.
  unfold add_expense_row.
  destruct (f_category row) as [c| | | |] eqn:Ec;
    destruct (f_amount row) as [a|s] eqn:Ea;
    try (destruct (forallb _ _); [|discriminate]; intro E; inversion E; now left).
  - intro E. right.
    exists (mkData _ (username self) (f_date row) c a (f_description row)).
    destruct (add_expense fs self _) as [[fs1 self1] reply1].
    inversion E. subst. repeat split; reflexivity.
  - destruct (negb _); [intro E; inversion E; now left|].
    destruct (filter _ _); discriminate.
Qed.

Lemma outcome_state (fs : Files) (self : ExpenseTracker) (df : list DfRow) :
  forall st reply,
    outcome type_error fs self df = Some (st, reply) ->
    st = reached (walk type_error df fs self).
Proof.
  intros st reply. unfold outcome.
  destruct (ending (walk type_error df fs self)); [| |discriminate];
    intro E; now inversion E.
Qed.

(** The state a bulk upload leaves is the state the loop reached (the
    state before, on the exits that come before the loop). *)
Lemma add_bulk_expenses_state (fs : Files) (self : ExpenseTracker)
    (file : UploadedFile) :
  forall st reply,
    add_bulk_expenses to_datetime type_error fs self file = Some (st, reply) ->
    exists df, st = reached (walk type_error df fs self).
Proof.
  intros st reply. rewrite add_bulk_expenses_eq.
  destruct file as [e|columns rows].
  - intro E. inversion E. now exists [].
  - destruct (negb _); [intro E; inversion E; now exists []|].
    destruct (coerce_dates _ _) as [df|]; [|intro E; inversion E; now exists []].
    intro E. exists df. now apply (outcome_state _ _ _ _ reply).
Qed.

End Requests.



(** ** Date ranges *)

Section Ranges.
Context `{Numeric}.

(** A filter split in two that exclude each other. *)
Lemma filter_split {A} (p q r : A -> bool) (l : list A) :
  (forall x, p x = q x || r x) ->
  (forall x, q x && r x = false) ->
  Permutation (filter p l) (filter q l ++ filter r l).
Proof.
  intros Hp Hqr. induction l as [|a l IH]; simpl; [constructor|].
  rewrite Hp. specialize (Hqr a).
  destruct (q a), (r a); simpl; try discriminate.
  - now constructor.
  - now apply Permutation_cons_app.
  - exact IH.
Qed.

Lemma filter_lengths {A} (p : A -> bool) (l : list A) :
  (List.length (filter p l) + List.length (filter (fun x => negb (p x)) l)
   = List.length l)%nat.
Proof.
  induction l as [|a l IH]; simpl; [reflexivity|].
  destruct (p a); simpl; lia.
Qed.

End Ranges.

(** X10.  A range whose end is before its start selects nothing, whatever
    the other criteria. *)
Theorem inverted_range_is_empty `{Numeric}
    (self : ExpenseTracker) (start_date end_date : Timestamp)
    (cats : option (list string)) (min_amount max_amount : option amount) :
  end_date < start_date ->
  get_filtered_expenses self start_date end_date cats min_amount max_amount = [].
Proof.
  intro Hlt. rewrite get_filtered_expenses_eq. apply filter_none.
  intros r _. unfold keeps.
  destruct (Z.leb_spec start_date (e_date r)) as [Hs|Hs]; [|reflexivity].
  destruct (Z.leb_spec (e_date r) end_date) as [He|He]; [lia | reflexivity].
Qed.

(** From the 16th back to the 15th alice has nothing. *)
Lemma inverted_range_is_empty_witness :
  get_filtered_expenses Alice.two_meals Alice.jan16 Alice.jan15 None None None
  = [].
Proof.
  apply (@inverted_range_is_empty Binary64 Alice.two_meals Alice.jan16
           Alice.jan15 None None None).
  vm_compute. reflexivity.
Defined.

(** X11.  Cutting a range in two loses nothing and counts nothing twice:
    with the same other criteria, the rows of [start, end] are the rows of
    [start, mid] together with those of [mid + 1, end], a timestamp being
    a whole number of nanoseconds. *)
Theorem range_splits `{Numeric}
    (self : ExpenseTracker) (start_date mid end_date : Timestamp)
    (cats : option (list string)) (min_amount max_amount : option amount) :
  start_date <= mid + 1 ->
  mid <= end_date ->
  Permutation
    (get_filtered_expenses self start_date end_date cats min_amount max_amount)
    (get_filtered_expenses self start_date mid cats min_amount max_amount
     ++ get_filtered_expenses self (mid + 1) end_date cats min_amount max_amount).
Proof.
  intros Hs He. rewrite !get_filtered_expenses_eq. apply filter_split.
  - intro r. unfold keeps.
    destruct (if truthy cats then isin (e_category r) cats else true);
      [|now rewrite !andb_false_r].
    destruct (match min_amount with Some m => ge (e_amount r) m | None => true end);
      [|now rewrite !andb_false_r].
    destruct (match max_amount with Some m => le (e_amount r) m | None => true end);
      [|now rewrite !andb_false_r].
    rewrite !andb_true_r.
    destruct (Z.leb_spec start_date (e_date r)),
             (Z.leb_spec (e_date r) end_date),
             (Z.leb_spec (e_date r) mid),
             (Z.leb_spec (mid + 1) (e_date r)); simpl; try reflexivity; lia.
  - intro r. unfold keeps.
    destruct (Z.leb_spec (e_date r) mid), (Z.leb_spec (mid + 1) (e_date r));
      rewrite ?andb_false_r; simpl; try reflexivity; lia.
Qed.

(** alice's 15th to 17th is her 15th and her 16th to 17th. *)
Lemma range_splits_witness :
  Permutation
    (get_filtered_expenses Alice.two_meals Alice.jan15 Alice.jan17 None None None)
    (get_filtered_expenses Alice.two_meals Alice.jan15 Alice.jan15 None None None
     ++ get_filtered_expenses Alice.two_meals (Alice.jan15 + 1) Alice.jan17
          None None None).
Proof.
  apply (@range_splits Binary64 Alice.two_meals Alice.jan15 Alice.jan15
           Alice.jan17 None None None).
  - vm_compute. discriminate.
  - vm_compute. discriminate.
Defined.

(** ** The stored digest *)

Section Digest.

Lemma round_length (st : list Z) (k w : Z) :
  List.length (SHA256.round st k w) = List.length st.
Proof.
  unfold SHA256.round.
  destruct st as [|a [|b [|c [|d [|e [|f [|g [|h [|i l]]]]]]]]]; reflexivity.
Qed.

Lemma rounds_length (ks : list Z) :
  forall win st, List.length (SHA256.rounds ks win st) = List.length st.
Proof.
  induction ks as [|k ks IH]; intros win st; simpl; [reflexivity|].
  now rewrite IH, round_length.
Qed.

Lemma compress_length (h block : list Z) :
  List.length (SHA256.compress h block) = List.length h.
Proof.
  unfold SHA256.compress.
  rewrite length_map, length_combine, rounds_length. apply Nat.min_id.
Qed.

Lemma blocks_length (n : nat) :
  forall ws h, List.length (SHA256.blocks n ws h) = List.length h.
Proof.
  induction n as [|n IH]; intros ws h; simpl; [reflexivity|].
  now rewrite IH, compress_length.
Qed.

Lemma digest_length (msg : list Z) : List.length (SHA256.digest msg) = 8%nat.
Proof. unfold SHA256.digest. now rewrite blocks_length. Qed.

Lemma hex_word_length (x : Z) : List.length (SHA256.hex_word x) = 8%nat.
Proof. unfold SHA256.hex_word. now rewrite length_map, length_rev, length_seq. Qed.

Lemma hex_words_length (ws : list Z) :
  List.length (flat_map SHA256.hex_word ws) = (8 * List.length ws)%nat.
Proof.
  induction ws as [|x ws IH]; [reflexivity|].
  cbn [flat_map List.length]. rewrite length_app, hex_word_length, IH. lia.
Qed.

Lemma string_of_list_length (l : list ascii) :
  String.length (string_of_list_ascii l) = List.length l.
Proof. induction l as [|c l IH]; simpl; [reflexivity | now rewrite IH]. Qed.

Lemma hex_digit_in (d : Z) :
  0 <= d < 16 ->
  In (SHA256.hex_digit d) (list_ascii_of_string "0123456789abcdef").
Proof.
  intro Hd. unfold SHA256.hex_digit. apply nth_In.
  change (List.length (list_ascii_of_string "0123456789abcdef")) with 16%nat.
  lia.
Qed.

End Digest.

(** X15.  What is stored for a password is always 64 characters, each one
    of 0-9 and a-f, whatever the password: never an empty field, and never
    the password itself unless the password is 64 characters long. *)
Theorem password_digest_shape (password : string) :
  String.length (hash_password password) = 64%nat
  /\ (forall c,
        In c (list_ascii_of_string (hash_password password)) ->
        In c (list_ascii_of_string "0123456789abcdef"))
  /\ hash_password password <> ""
  /\ (String.length password <> 64%nat -> hash_password password <> password).
Proof.
  assert (Hlen : String.length (hash_password password) = 64%nat).
  { unfold hash_password, SHA256.hexdigest.
    now rewrite string_of_list_length, hex_words_length, digest_length. }
  split; [exact Hlen|]. split; [|split].
  - intros c Hc. unfold hash_password, SHA256.hexdigest in Hc.
    rewrite list_ascii_of_string_of_list_ascii in Hc.
    apply in_flat_map in Hc. destruct Hc as [x [_ Hc]].
    unfold SHA256.hex_word in Hc. apply in_map_iff in Hc.
    destruct Hc as [i [<- _]]. apply hex_digit_in.
    apply Z.mod_pos_bound. lia.
  - intro E. rewrite E in Hlen. discriminate.
  - intros Hne E. rewrite E in Hlen. contradiction.
Qed.

(** ** The budget bars of the dashboard, on Python floats *)

(** Python's [min(a, b)]: [b] when [b < a], [a] otherwise. *)
Definition py_min (a b : float) : float :=
  if PrimFloat.ltb b a then b else a.

(** [(spent / budget['amount'] * 100) if budget['amount'] > 0 else 0], the
    percentage of the alerts. *)
Definition alert_percent (spent budget_amount : float) : float :=
  if PrimFloat.ltb 0 budget_amount
  then (spent / budget_amount * 100)%float
  else 0%float.

(** The percentage of the budget bar: the same, capped. *)
Definition status_percent (spent budget_amount : float) : float :=
  py_min (alert_percent spent budget_amount) 100.

(** X16.  The percentage shown on a budget bar is never greater than 100,
    for any two floats; it is the alert percentage unless that one is
    greater than 100; and a budget that is not greater than zero shows 0
    in both places, no division taking place. *)
Theorem status_percent_capped (spent budget_amount : float) :
  PrimFloat.ltb 100 (status_percent spent budget_amount) = false
  /\ (status_percent spent budget_amount = alert_percent spent budget_amount
      \/ (status_percent spent budget_amount = 100%float
          /\ PrimFloat.ltb 100 (alert_percent spent budget_amount) = true))
  /\ (PrimFloat.ltb 0 budget_amount = false ->
      alert_percent spent budget_amount = 0%float
      /\ status_percent spent budget_amount = 0%float).
Proof.
  unfold status_percent, py_min. split; [|split].
  - destruct (PrimFloat.ltb 100 (alert_percent spent budget_amount)) eqn:E.
    + apply float_gt_irrefl.
    + exact E.
  - destruct (PrimFloat.ltb 100 (alert_percent spent budget_amount)) eqn:E.
    + right. now split.
    + now left.
  - intro Hb. unfold alert_percent. rewrite Hb. split; reflexivity.
Qed.

Example budget_bars :
  status_percent 60 100 = 60%float
  /\ status_percent 150 100 = 100%float
  /\ alert_percent 150 100 = 150%float
  /\ status_percent 60 0 = 0%float.
Proof. repeat split. Qed.

